(** * Rafiki: language and intent understanding pipeline

    A shallow embedding of [backend/services/intent_service.py]
    (class [IntentDetector]) and [backend/services/language_service.py]
    (class [LanguageDetector]), with the properties of the pipeline
    stated and proved over it.

    Conventions of the embedding.
    - A Python [str] is a [string]; a character is a code point below 256,
      with the classes [\d], [\w], [\s] and the case mapping that CPython
      gives those code points.  Code points from 256 on are not modelled.
    - A Python [float] is the rational of [Q] that the double holds.
      The operations [+], [*], [/] of [LanguageDetector] are the exact
      operation followed by the rounding of IEEE 754 binary64 to the
      nearest double, ties to even ([Double.rnd], computed by the
      [SpecFloat] of the standard library); a literal that enters such an
      operation is rounded too ([Double.lit]).  A literal that the code
      only returns or compares is written as its decimal, which stands
      for the double nearest to it.
    - A [dict] is a [gmap] with [string] keys; a value stored in a dict
      or returned with a dynamic type is a [pyval].
    - [raise] / [try ... except Exception] is the sum monad [M]. *)

From Stdlib Require Import ZArith QArith String Ascii List Bool Lia Lqa.
From Stdlib Require Floats.SpecFloat.
From stdpp Require Import gmap strings.
Import ListNotations.

Local Open Scope string_scope.
Local Open Scope bool_scope.

(** ** Python values *)

Module Py.

Inductive pyval : Type :=
| PNone
| PBool (b : bool)
| PInt (z : Z)
| PStr (s : string).

#[global] Instance pyval_eq_dec : EqDecision pyval.
Proof. solve_decision. Defined.

(** Truth value testing ([if v:], [a and b]). *)
Definition truthy (v : pyval) : bool :=
  match v with
  | PNone => false
  | PBool b => b
  | PInt z => negb (Z.eqb z 0)
  | PStr s => negb (String.eqb s "")
  end.

(** [a == b]; [bool] is a subclass of [int], so [True == 1]. *)
Definition py_eq (a b : pyval) : bool :=
  match a, b with
  | PNone, PNone => true
  | PBool x, PBool y => Bool.eqb x y
  | PInt x, PInt y => Z.eqb x y
  | PBool x, PInt y | PInt y, PBool x => Z.eqb (if x then 1 else 0) y
  | PStr x, PStr y => String.eqb x y
  | _, _ => false
  end.

Definition py_ne (a b : pyval) : bool := negb (py_eq a b).

(** Exceptions derived from [Exception]. *)
Inductive exn : Type :=
| TypeError
| AttributeError
| OtherError (name : string).

Definition M (A : Type) : Type := (exn + A)%type.
Definition ret {A} (a : A) : M A := inr a.
Definition raise {A} (e : exn) : M A := inl e.
Definition bind {A B} (m : M A) (f : A -> M B) : M B :=
  match m with
  | inl e => inl e
  | inr a => f a
  end.

(** [try: body except Exception: handler] *)
Definition try_except {A} (body : M A) (handler : exn -> M A) : M A :=
  match body with
  | inl e => handler e
  | inr a => inr a
  end.

End Py.
Export Py.

Notation "'let*' x ':=' m 'in' k" := (bind m (fun x => k))
  (at level 10, x name, m at level 100, k at level 200).

(** ** Characters and [str] methods *)

Module Str.

Definition code (c : ascii) : N := N_of_ascii c.

Definition between (lo hi : N) (c : ascii) : bool :=
  (lo <=? code c)%N && (code c <=? hi)%N.

(** [\d] *)
Definition is_digit (c : ascii) : bool := between 48 57 c.

(** [str.isspace], [\s], and what [strip] and [split] remove. *)
Definition is_space (c : ascii) : bool :=
  between 9 13 c || between 28 32 c || (code c =? 133)%N || (code c =? 160)%N.

(** [\w] *)
Definition is_word (c : ascii) : bool :=
  between 48 57 c || between 65 90 c || (code c =? 95)%N || between 97 122 c
  || (code c =? 170)%N || between 178 179 c || (code c =? 181)%N
  || between 185 186 c || between 188 190 c || between 192 214 c
  || between 216 246 c || between 248 255 c.

Definition is_upper (c : ascii) : bool :=
  between 65 90 c || between 192 214 c || between 216 222 c.

Definition is_lower (c : ascii) : bool :=
  between 97 122 c || between 224 246 c || between 248 254 c.

Definition lower_char (c : ascii) : ascii :=
  if is_upper c then ascii_of_N (code c + 32) else c.

Definition upper_char (c : ascii) : ascii :=
  if is_lower c then ascii_of_N (code c - 32) else c.

(** [s.lower()] *)
Fixpoint lower (s : string) : string :=
  match s with
  | EmptyString => EmptyString
  | String c s' => String (lower_char c) (lower s')
  end.

Fixpoint lstrip (s : string) : string :=
  match s with
  | EmptyString => EmptyString
  | String c s' => if is_space c then lstrip s' else s
  end.

Fixpoint rstrip (s : string) : string :=
  match s with
  | EmptyString => EmptyString
  | String c s' =>
      match rstrip s' with
      | EmptyString => if is_space c then EmptyString else String c EmptyString
      | r => String c r
      end
  end.

(** [s.strip()] *)
Definition strip (s : string) : string := rstrip (lstrip s).

Fixpoint starts_with (p s : string) : bool :=
  match p, s with
  | EmptyString, _ => true
  | String a p', String b s' => Ascii.eqb a b && starts_with p' s'
  | String _ _, EmptyString => false
  end.

(** [sub in s] *)
Fixpoint py_in (sub s : string) : bool :=
  starts_with sub s ||
  match s with
  | EmptyString => false
  | String _ s' => py_in sub s'
  end.

(** [any(k in s for k in keywords)] *)
Definition any_in (keywords : list string) (s : string) : bool :=
  existsb (fun k => py_in k s) keywords.

Fixpoint rev_string (acc s : string) : string :=
  match s with
  | EmptyString => acc
  | String c s' => rev_string (String c acc) s'
  end.

(** [s.split()]: maximal runs of non-space characters.  [cur] holds the
    run being read, last character first. *)
Fixpoint split_ws (cur s : string) : list string :=
  match s with
  | EmptyString =>
      match cur with
      | EmptyString => []
      | _ => [rev_string "" cur]
      end
  | String c s' =>
      if is_space c then
        match cur with
        | EmptyString => split_ws "" s'
        | _ => rev_string "" cur :: split_ws "" s'
        end
      else split_ws (String c cur) s'
  end.

Definition split (s : string) : list string := split_ws "" s.

(** [s.replace(' ', '')] *)
Fixpoint remove_blanks (s : string) : string :=
  match s with
  | EmptyString => EmptyString
  | String c s' =>
      if Ascii.eqb c " " then remove_blanks s' else String c (remove_blanks s')
  end.

Fixpoint take (n : nat) (s : string) : string :=
  match n, s with
  | S n', String c s' => String c (take n' s')
  | _, _ => EmptyString
  end.

Definition len (s : string) : Z := Z.of_nat (String.length s).

End Str.
Export Str.

(** ** The fragment of [re] that the two services use

    Backtracking matcher with the priorities of CPython's [re]: the left
    branch of an alternation first, greedy repetition.  Every repetition
    of the patterns below is over a single character class, so [Rep]
    takes a class.  The matcher reads the text left to right and knows
    the character before the current position, which [\b] needs. *)

Module Re.

Inductive regex : Type :=
| Eps                                        (* empty pattern *)
| Chr (c : ascii)                            (* a literal character *)
| Cls (p : ascii -> bool)                    (* a class: [...], \d, \w, \s *)
| Cat (r1 r2 : regex)
| Alt (r1 r2 : regex)                        (* r1|r2 *)
| Rep (p : ascii -> bool) (lo : nat) (hi : option nat)   (* p{lo,hi} *)
| Bnd.                                       (* \b *)

(** A literal string. *)
Fixpoint Lit (s : string) : regex :=
  match s with
  | EmptyString => Eps
  | String c EmptyString => Chr c
  | String c s' => Cat (Chr c) (Lit s')
  end.

(** (k1|k2|...|kn) *)
Fixpoint AltL (rs : list regex) : regex :=
  match rs with
  | [] => Cls (fun _ => false)
  | [r] => r
  | r :: rs' => Alt r (AltL rs')
  end.

Definition Opt (r : regex) : regex := Alt r Eps.       (* r? *)
Definition Plus (p : ascii -> bool) : regex := Rep p 1 None.   (* p+ *)
Definition Star (p : ascii -> bool) : regex := Rep p 0 None.   (* p* *)
Definition Exactly (p : ascii -> bool) (n : nat) : regex := Rep p n (Some n).

Definition one_of (s : string) (c : ascii) : bool :=
  existsb (Ascii.eqb c) (list_ascii_of_string s).

(** Character tests under the flag [re.IGNORECASE] ([ic]). *)
Definition chr_ok (ic : bool) (c x : ascii) : bool :=
  Ascii.eqb x c || (ic && Ascii.eqb (lower_char x) (lower_char c)).

Definition cls_ok (ic : bool) (p : ascii -> bool) (x : ascii) : bool :=
  p x || (ic && (p (lower_char x) || p (upper_char x))).

Definition word_at (o : option ascii) : bool :=
  match o with
  | Some c => is_word c
  | None => false
  end.

Definition head (s : string) : option ascii :=
  match s with
  | EmptyString => None
  | String c _ => Some c
  end.

(** A continuation receives the character before the position reached
    and the text that is left there; it answers with the text left at
    the end of the whole match. *)
Definition cont : Type := option ascii -> string -> option string.

Definition hi_pred (hi : option nat) : option nat :=
  match hi with
  | Some n => Some (Nat.pred n)
  | None => None
  end.

Definition hi_open (hi : option nat) : bool :=
  match hi with
  | Some O => false
  | _ => true
  end.

(** Greedy [p{lo,hi}]: take one more character when allowed, and give
    it back when the rest of the pattern fails. *)
Fixpoint rep (ic : bool) (p : ascii -> bool) (lo : nat) (hi : option nat)
    (prev : option ascii) (s : string) (k : cont) : option string :=
  let stop := if Nat.eqb lo 0 then k prev s else None in
  match s with
  | String c s' =>
      if cls_ok ic p c && hi_open hi then
        match rep ic p (Nat.pred lo) (hi_pred hi) (Some c) s' k with
        | Some rest => Some rest
        | None => stop
        end
      else stop
  | EmptyString => stop
  end.

Fixpoint run (ic : bool) (r : regex) (prev : option ascii) (s : string)
    (k : cont) : option string :=
  match r with
  | Eps => k prev s
  | Chr c =>
      match s with
      | String x s' => if chr_ok ic c x then k (Some x) s' else None
      | EmptyString => None
      end
  | Cls p =>
      match s with
      | String x s' => if cls_ok ic p x then k (Some x) s' else None
      | EmptyString => None
      end
  | Cat r1 r2 => run ic r1 prev s (fun prev' s' => run ic r2 prev' s' k)
  | Alt r1 r2 =>
      match run ic r1 prev s k with
      | Some rest => Some rest
      | None => run ic r2 prev s k
      end
  | Rep p lo hi => rep ic p lo hi prev s k
  | Bnd => if xorb (word_at prev) (word_at (head s)) then k prev s else None
  end.

(** The match that starts at the current position, if any: the text
    left after it. *)
Definition match_here (ic : bool) (r : regex) (prev : option ascii)
    (s : string) : option string :=
  run ic r prev s (fun _ rest => Some rest).

Definition matched (s rest : string) : string :=
  take (String.length s - String.length rest) s.

(** [re.search(r, s)]: the leftmost match; [group()] of it. *)
Fixpoint search_from (ic : bool) (r : regex) (prev : option ascii)
    (s : string) : option string :=
  match match_here ic r prev s with
  | Some rest => Some (matched s rest)
  | None =>
      match s with
      | String c s' => search_from ic r (Some c) s'
      | EmptyString => None
      end
  end.

Definition search (r : regex) (s : string) : option string :=
  search_from false r None s.

(** [re.findall(r, s, flags)]: the matches found left to right, each
    search resuming where the previous match ended.  [skip] counts the
    characters of the last match still to be passed.  No pattern of the
    services matches the empty string, so a match always advances. *)
Fixpoint findall_from (ic : bool) (r : regex) (prev : option ascii)
    (s : string) (skip : nat) : list string :=
  match skip with
  | S n =>
      match s with
      | String c s' => findall_from ic r (Some c) s' n
      | EmptyString => []
      end
  | O =>
      match match_here ic r prev s with
      | Some rest =>
          matched s rest ::
          match s with
          | String c s' =>
              findall_from ic r (Some c) s'
                (Nat.pred (String.length s - String.length rest))
          | EmptyString => []
          end
      | None =>
          match s with
          | String c s' => findall_from ic r (Some c) s' 0
          | EmptyString => []
          end
      end
  end.

Definition findall (ic : bool) (r : regex) (s : string) : list string :=
  findall_from ic r None s 0.

(** [re.split(r, s)] for a pattern without groups: the pieces between
    the matches.  [cur] is the piece being read, last character first. *)
Fixpoint split_from (r : regex) (prev : option ascii) (s : string)
    (skip : nat) (cur : string) : list string :=
  match skip with
  | S n =>
      match s with
      | String c s' => split_from r (Some c) s' n cur
      | EmptyString => [rev_string "" cur]
      end
  | O =>
      match s with
      | EmptyString => [rev_string "" cur]
      | String c s' =>
          match match_here false r prev s with
          | Some rest =>
              match (String.length s - String.length rest)%nat with
              | O => split_from r (Some c) s' 0 (String c cur)
              | S n => rev_string "" cur :: split_from r (Some c) s' n ""
              end
          | None => split_from r (Some c) s' 0 (String c cur)
          end
      end
  end.

Definition split (r : regex) (s : string) : list string :=
  split_from r None s 0 "".

(** [re.sub(r, '', s)]: the text with every match removed. *)
Fixpoint remove_from (r : regex) (prev : option ascii) (s : string)
    (skip : nat) : string :=
  match s with
  | EmptyString => EmptyString
  | String c s' =>
      match skip with
      | S n => remove_from r (Some c) s' n
      | O =>
          match match_here false r prev s with
          | Some rest =>
              match (String.length s - String.length rest)%nat with
              | O => String c (remove_from r (Some c) s' 0)
              | S n => remove_from r (Some c) s' n
              end
          | None => String c (remove_from r (Some c) s' 0)
          end
      end
  end.

Definition remove_all (r : regex) (s : string) : string :=
  remove_from r None s 0.

End Re.

(** ** Floats as rationals *)

Module Num.

Definition Qlt_bool (a b : Q) : bool := negb (Qle_bool b a).

(** [min(a, b)]: the first of the smallest. *)
Definition qmin (a b : Q) : Q := if Qlt_bool b a then b else a.

(** [n / d] on two lengths or counts; the caller guards [d > 0]. *)
Definition ratio (n d : nat) : Q := (inject_Z (Z.of_nat n) / inject_Z (Z.of_nat d))%Q.

End Num.
Export Num.

(** ** Doubles

    The value of a finite double is a rational; zero, the infinities
    and NaN are given the value 0 (no operation of the code reaches an
    infinity or NaN: every quantity it computes is at most 1.2, and its
    divisions are guarded).  The rounding of a rational [n/d] is the
    correctly rounded quotient of the integers [n] and [d], as
    [SpecFloat.SFdiv] computes it for binary64. *)

Module Double.

Definition prec : Z := 53.
Definition emax : Z := 1024.

Definition value (f : SpecFloat.spec_float) : Q :=
  match f with
  | SpecFloat.S754_finite s m e =>
      let n := if s then Zneg m else Zpos m in
      match e with
      | Z0 => n # 1
      | Zpos p => (n * Z.pow_pos 2 p) # 1
      | Zneg p => n # (Pos.pow 2 p)
      end
  | _ => 0%Q
  end.

(** The integer [n], with the sign [s], as an operand of [SFdiv]. *)
Definition whole (s : bool) (n : positive) : SpecFloat.spec_float :=
  SpecFloat.S754_finite s n 0.

(** The double nearest to [q], ties to even. *)
Definition rnd (q : Q) : Q :=
  match Qnum q with
  | Z0 => 0%Q
  | Zpos n =>
      value (SpecFloat.SFdiv prec emax (whole false n) (whole false (Qden q)))
  | Zneg n =>
      value (SpecFloat.SFdiv prec emax (whole true n) (whole false (Qden q)))
  end.

(** A float literal. *)
Definition lit (q : Q) : Q := rnd q.

(** [a + b], [a * b], [a / b] on floats. *)
Definition fadd (a b : Q) : Q := rnd (a + b).
Definition fmul (a b : Q) : Q := rnd (a * b).
Definition fdiv (a b : Q) : Q := rnd (a / b).

(** [float(n)], as in [n * 0.1] for an [int] [n]. *)
Definition of_int (n : nat) : Q := rnd (inject_Z (Z.of_nat n)).

(** [n / d] on two [int]s: the exact quotient, rounded once. *)
Definition true_div (n d : nat) : Q := rnd (ratio n d).

End Double.
Export Double.

(** ** [intent_service.py]: class [IntentDetector] *)

Module IntentDetector.
Import Re.

(** *** Intent categories *)

Definition INTENT_KRA_NIL_RETURNS := "kra_nil_returns".
Definition INTENT_KRA_PIN_RECOVERY := "kra_pin_recovery".
Definition INTENT_KRA_PIN_GENERATION := "kra_pin_generation".
Definition INTENT_ITAX_HELP := "itax_help".
Definition INTENT_SERVICE_INQUIRY := "service_inquiry".
Definition INTENT_BOOKING := "book_appointment".
Definition INTENT_CONFIRMATION := "confirm".
Definition INTENT_NAVIGATION := "navigate".
Definition INTENT_CLARIFICATION := "clarify".
Definition INTENT_GREETING := "greeting".
Definition INTENT_HELP := "help".
Definition INTENT_UNKNOWN := "unknown".

(** *** Keyword tables *)

Definition KRA_NIL_RETURNS_KEYWORDS : list string :=
  [ "nil returns"; "nil return"; "zero returns"; "no income";
    "file returns"; "file nil"; "submit returns"; "annual returns";
    "kra returns"; "income returns"; "tax returns" ].

Definition KRA_PIN_RECOVERY_KEYWORDS : list string :=
  [ "recover pin"; "reset pin"; "forgotten pin"; "lost pin";
    "pin recovery"; "forgot pin"; "pin reset"; "new pin";
    "pin help"; "pin issue"; "pin problem" ].

Definition KRA_PIN_GENERATION_KEYWORDS : list string :=
  [ "get pin"; "generate pin"; "create pin"; "new pin";
    "pin application"; "apply for pin"; "register for pin";
    "kra pin"; "pin number" ].

Definition ITAX_KEYWORDS : list string :=
  [ "itax"; "i-tax"; "login"; "password"; "username";
    "dashboard"; "portal"; "account"; "access itax" ].

Definition GREETING_KEYWORDS : list string :=
  [ "hello"; "hi"; "hey"; "good morning"; "good afternoon";
    "good evening"; "habari"; "jambo"; "asante"; "karibu";
    "how are you"; "how are you doing" ].

Definition CONFIRMATION_KEYWORDS : list string :=
  [ "yes"; "yeah"; "yep"; "okay"; "ok"; "sure"; "confirmed";
    "proceed"; "go ahead"; "continue"; "ndiyo"; "sawa"; "kweli" ].

Definition NEGATION_KEYWORDS : list string :=
  [ "no"; "nope"; "cancel"; "stop"; "don't"; "dont"; "back";
    "previous"; "hapana"; "simu"; "usisoma" ].

Definition HELP_KEYWORDS : list string :=
  [ "help"; "assist"; "support"; "guide"; "explain"; "clarify";
    "how"; "what"; "confused"; "stuck"; "unclear"; "msaada" ].

Definition SERVICE_NAMES : list string :=
  [ "passport"; "id"; "license"; "permit"; "conduct"; "birth" ].

Definition BOOKING_KEYWORDS : list string :=
  [ "book"; "appointment"; "schedule"; "reserve" ].

(** *** Result types *)

Record Workflow : Type := {
  name : string;
  steps : list string;
  urls : list string;
  requires_authentication : bool;
  sms_confirmation : bool
}.

Record IntentResult : Type := {
  intent : string;
  confidence : Q;
  language : string;
  normalized_message : option string;   (* the error result has no such key *)
  entities : gmap string pyval;
  workflow : option Workflow;
  suggested_actions : list string;
  requires_confirmation : bool;
  is_conversational : bool
}.

(** *** [_detect_language] *)

Definition sw_patterns : list regex :=
  [ Cat Bnd (Cat (AltL (map Lit ["na"; "kwa"; "ni"; "wa"; "ja"; "za"; "ta"; "ka"])) Bnd);
    Cat Bnd (Cat (AltL (map Lit ["rafiki"; "habari"; "asante"; "pole"; "sawa";
                                 "ndiyo"; "hapana"; "tafadhali"])) Bnd);
    Rep (one_of "aeiou") 2 None ].

Definition _detect_language (message : string) : string :=
  let sw_score :=
    fold_right Nat.add 0%nat
      (map (fun pattern => List.length (findall true pattern message)) sw_patterns) in
  if (3 <? sw_score)%nat then "sw" else "en".

(** *** [_normalize_message] *)

Definition _normalize_message (message : string) : string :=
  strip (lower message).

(** *** [_matches_keywords] and [_detect_primary_intent] *)

Definition _matches_keywords (normalized : string) (keywords : list string) : bool :=
  any_in keywords normalized.

Definition _detect_primary_intent (normalized : string) : string * Q :=
  if _matches_keywords normalized KRA_NIL_RETURNS_KEYWORDS then
    (INTENT_KRA_NIL_RETURNS, 0.95%Q)
  else if _matches_keywords normalized KRA_PIN_RECOVERY_KEYWORDS then
    (INTENT_KRA_PIN_RECOVERY, 0.95%Q)
  else if _matches_keywords normalized KRA_PIN_GENERATION_KEYWORDS then
    (INTENT_KRA_PIN_GENERATION, 0.90%Q)
  else if _matches_keywords normalized ITAX_KEYWORDS then
    (INTENT_ITAX_HELP, 0.85%Q)
  else if _matches_keywords normalized GREETING_KEYWORDS then
    (INTENT_GREETING, 0.90%Q)
  else if _matches_keywords normalized HELP_KEYWORDS then
    (INTENT_HELP, 0.85%Q)
  else if _matches_keywords normalized CONFIRMATION_KEYWORDS then
    (INTENT_CONFIRMATION, 0.80%Q)
  else if _matches_keywords normalized NEGATION_KEYWORDS then
    ("negate", 0.80%Q)
  else if any_in SERVICE_NAMES normalized then
    (INTENT_SERVICE_INQUIRY, 0.85%Q)
  else if _matches_keywords normalized BOOKING_KEYWORDS then
    (INTENT_BOOKING, 0.80%Q)
  else
    (INTENT_UNKNOWN, 0.5%Q).

(** *** [_extract_entities] *)

Definition d2 : regex := Exactly is_digit 2.

(** [(?:\+254|0)?[17]\d{8}] *)
Definition phone_re : regex :=
  Cat (Opt (Alt (Lit "+254") (Chr "0")))
      (Cat (Cls (one_of "17")) (Exactly is_digit 8)).

(** [\b\d{10}\b] *)
Definition kra_pin_re : regex := Cat Bnd (Cat (Exactly is_digit 10) Bnd).

(** [\b\d{8}\b|\d{2}\s*\d{2}\s*\d{2}\s*\d{2}] *)
Definition id_re : regex :=
  Alt (Cat Bnd (Cat (Exactly is_digit 8) Bnd))
      (Cat d2 (Cat (Star is_space) (Cat d2 (Cat (Star is_space)
        (Cat d2 (Cat (Star is_space) d2)))))).

Definition word_dot_dash (c : ascii) : bool := is_word c || one_of ".-" c.

(** [[\w\.-]+@[\w\.-]+\.\w+] *)
Definition email_re : regex :=
  Cat (Plus word_dot_dash) (Cat (Chr "@")
    (Cat (Plus word_dot_dash) (Cat (Chr ".") (Plus is_word)))).

Definition capital : regex := Cat (Cls (between 65 90)) (Plus (between 97 122)).

(** [\b([A-Z][a-z]+\s+[A-Z][a-z]+)\b] *)
Definition name_re : regex :=
  Cat Bnd (Cat capital (Cat (Plus is_space) (Cat capital Bnd))).

(** [\b(\d{1,2}[/-]\d{1,2}[/-]\d{2,4})\b] *)
Definition date_re : regex :=
  Cat Bnd (Cat (Rep is_digit 1 (Some 2)) (Cat (Cls (one_of "/-"))
    (Cat (Rep is_digit 1 (Some 2)) (Cat (Cls (one_of "/-"))
      (Cat (Rep is_digit 2 (Some 4)) Bnd))))).

(** [key not in entities] *)
Definition not_in (key : string) (entities : gmap string pyval) : bool :=
  bool_decide (entities !! key = None).

(** [if m: entities[key] = f(m.group())] *)
Definition store_match (key : string) (m : option string)
    (f : string -> string) (entities : gmap string pyval) : gmap string pyval :=
  match m with
  | Some g => <[key := PStr (f g)]> entities
  | None => entities
  end.

Definition _extract_entities (message intent : string) : gmap string pyval :=
  let entities : gmap string pyval := ∅ in
  (* Extract phone number *)
  let entities := store_match "phone_number" (search phone_re message) id entities in
  (* Extract KRA PIN (10 digits) *)
  let entities :=
    match search kra_pin_re message with
    | Some g =>
        if (String.length g =? 10)%nat then <["kra_pin" := PStr g]> entities
        else entities
    | None => entities
    end in
  (* Extract national ID (8 digits usually, sometimes with spaces) *)
  let entities := store_match "national_id" (search id_re message) remove_blanks entities in
  (* Extract email *)
  let entities := store_match "email" (search email_re message) id entities in
  (* Extract names *)
  let entities := store_match "user_name" (search name_re message) id entities in
  (* Intent-specific entity extraction *)
  if String.eqb intent INTENT_KRA_NIL_RETURNS then
    let entities := <["service_type" := PStr "nil_returns"]> entities in
    <["requires_pin" := PBool (not_in "kra_pin" entities)]> entities
  else if String.eqb intent INTENT_KRA_PIN_RECOVERY then
    let entities := <["service_type" := PStr "pin_recovery"]> entities in
    <["requires_identification" := PBool (not_in "national_id" entities)]> entities
  else if String.eqb intent INTENT_KRA_PIN_GENERATION then
    let entities := <["service_type" := PStr "pin_generation"]> entities in
    <["requires_identification" := PBool (not_in "national_id" entities)]> entities
  else if String.eqb intent INTENT_BOOKING then
    let entities := store_match "date" (search date_re message) id entities in
    if py_in "morning" (lower message) || py_in "am" (lower message) then
      <["time_slot" := PStr "morning"]> entities
    else if py_in "afternoon" (lower message) || py_in "pm" (lower message) then
      <["time_slot" := PStr "afternoon"]> entities
    else entities
  else entities.

(** *** [_get_workflow] *)

Definition _get_workflow (intent : string) (entities : gmap string pyval)
    (session_context : option (gmap string pyval)) : option Workflow :=
  if String.eqb intent INTENT_KRA_NIL_RETURNS then
    Some {| name := "KRA Nil Returns Filing";
            steps := [ "Confirm user has KRA PIN";
                       "Explain nil returns eligibility";
                       "Navigate to iTax portal";
                       "Guide through login";
                       "Guide through nil returns form";
                       "Confirm submission";
                       "Offer SMS confirmation" ];
            urls := ["https://accounts.ecitizen.go.ke/en/services/itax"];
            requires_authentication := true;
            sms_confirmation := true |}
  else if String.eqb intent INTENT_KRA_PIN_RECOVERY then
    Some {| name := "KRA PIN Recovery";
            steps := [ "Verify user identity (national ID)";
                       "Explain recovery process";
                       "Ask for registered email/phone";
                       "Guide through recovery link";
                       "Confirm new PIN delivery";
                       "Offer SMS confirmation" ];
            urls := ["https://accounts.ecitizen.go.ke/en/services/pin-recovery"];
            requires_authentication := false;
            sms_confirmation := true |}
  else if String.eqb intent INTENT_KRA_PIN_GENERATION then
    Some {| name := "KRA PIN Generation";
            steps := [ "Verify user identity (national ID)";
                       "Explain PIN requirements";
                       "Navigate to iTax registration";
                       "Guide through registration form";
                       "Confirm PIN assignment";
                       "Offer SMS PIN confirmation" ];
            urls := ["https://accounts.ecitizen.go.ke/en/services/pin-registration"];
            requires_authentication := false;
            sms_confirmation := true |}
  else if String.eqb intent INTENT_ITAX_HELP then
    Some {| name := "iTax Portal Assistance";
            steps := [ "Determine specific issue";
                       "Provide login guidance";
                       "Offer step-by-step help";
                       "Confirm issue resolved" ];
            urls := ["https://itax.kra.go.ke"];
            requires_authentication := true;
            sms_confirmation := false |}
  else if String.eqb intent INTENT_BOOKING then
    Some {| name := "Appointment Booking";
            steps := [ "Confirm service type";
                       "Verify user identity";
                       "Confirm preferred date/time";
                       "Take contact details";
                       "Send SMS confirmation" ];
            urls := [];
            requires_authentication := false;
            sms_confirmation := true |}
  else None.

(** *** [_get_suggestions] *)

Definition FALLBACK_SUGGESTIONS : list string :=
  [ "Can you clarify that?"; "Tell me more"; "Try again" ].

Definition _get_suggestions (intent : string) (workflow : option Workflow)
    : list string :=
  if String.eqb intent INTENT_KRA_NIL_RETURNS then
    [ "Guide me through filing nil returns";
      "Open iTax portal";
      "Do I qualify for nil returns?" ]
  else if String.eqb intent INTENT_KRA_PIN_RECOVERY then
    [ "Help me recover my PIN";
      "Send recovery link to my email";
      "Explain the recovery process" ]
  else if String.eqb intent INTENT_KRA_PIN_GENERATION then
    [ "Apply for a new KRA PIN";
      "What do I need to get a PIN?";
      "Start the registration process" ]
  else if String.eqb intent INTENT_GREETING then
    [ "File nil returns";
      "Recover my KRA PIN";
      "Get a KRA PIN";
      "Book an appointment" ]
  else if String.eqb intent INTENT_HELP then
    [ "Can you help me navigate?";
      "What services are available?";
      "Go back to main menu" ]
  else FALLBACK_SUGGESTIONS.

(** [intent in [...]] *)
Definition intent_in (intent : string) (l : list string) : bool :=
  existsb (String.eqb intent) l.

Definition _needs_confirmation (intent : string) : bool :=
  intent_in intent
    [ INTENT_BOOKING; INTENT_KRA_NIL_RETURNS;
      INTENT_KRA_PIN_RECOVERY; INTENT_KRA_PIN_GENERATION ].

Definition _is_conversational (intent : string) : bool :=
  intent_in intent
    [ INTENT_GREETING; INTENT_HELP; INTENT_UNKNOWN;
      INTENT_SERVICE_INQUIRY; INTENT_CLARIFICATION ].

(** *** [detect]

    The methods that [detect] calls are looked up on [self]; the body of
    [detect] is written over any implementation of them, each of which
    may raise.  [self_language] is the attribute [self.language] on
    entry; the second component of the answer is its value on exit. *)

Definition error_result (self_language : string) : IntentResult :=
  {| intent := INTENT_UNKNOWN;
     confidence := 0.0%Q;
     language := self_language;
     normalized_message := None;
     entities := ∅;
     workflow := None;
     suggested_actions := ["Could you clarify what you need?"];
     requires_confirmation := false;
     is_conversational := true |}.

Section Detect.

Variable detect_language : pyval -> M string.
Variable normalize_message : pyval -> M string.
Variable detect_primary_intent : string -> M (string * Q).
Variable extract_entities : pyval -> string -> M (gmap string pyval).
Variable get_workflow :
  string -> gmap string pyval -> option (gmap string pyval) -> M (option Workflow).
Variable get_suggestions : string -> option Workflow -> M (list string).
Variable needs_confirmation : string -> M bool.
Variable is_conversational_of : string -> M bool.

(** The statements of the [try] block that follow the assignment to
    [self.language]. *)
Definition detect_rest (lang : string) (message : pyval)
    (session_context : option (gmap string pyval)) : M IntentResult :=
  let* normalized := normalize_message message in
  let* ic := detect_primary_intent normalized in
  let* ents := extract_entities message (fst ic) in
  let* wf := get_workflow (fst ic) ents session_context in
  let* suggestions := get_suggestions (fst ic) wf in
  let* rc := needs_confirmation (fst ic) in
  let* conv := is_conversational_of (fst ic) in
  ret {| intent := fst ic;
         confidence := snd ic;
         language := lang;
         normalized_message := Some normalized;
         entities := ents;
         workflow := wf;
         suggested_actions := suggestions;
         requires_confirmation := rc;
         is_conversational := conv |}.

(** The [try] block: its outcome and [self.language] after it. *)
Definition detect_try (self_language : string) (message : pyval)
    (session_context : option (gmap string pyval)) : M IntentResult * string :=
  match detect_language message with
  | inl e => (inl e, self_language)
  | inr lang => (detect_rest lang message session_context, lang)
  end.

Definition detect_with (self_language : string) (message : pyval)
    (conversation_history : option (list (gmap string string)))
    (session_context : option (gmap string pyval)) : IntentResult * string :=
  let (outcome, lang) := detect_try self_language message session_context in
  match outcome with
  | inr result => (result, lang)
  | inl e => (error_result lang, lang)
  end.

(** A stage of the [try] block raises [e] on the values that reach it. *)
Inductive stage_raises (message : pyval)
    (session_context : option (gmap string pyval)) (e : exn) : Prop :=
| raises_detect_language :
    detect_language message = inl e ->
    stage_raises message session_context e
| raises_normalize_message lang :
    detect_language message = inr lang ->
    normalize_message message = inl e ->
    stage_raises message session_context e
| raises_detect_primary_intent lang normalized :
    detect_language message = inr lang ->
    normalize_message message = inr normalized ->
    detect_primary_intent normalized = inl e ->
    stage_raises message session_context e
| raises_extract_entities lang normalized ic :
    detect_language message = inr lang ->
    normalize_message message = inr normalized ->
    detect_primary_intent normalized = inr ic ->
    extract_entities message (fst ic) = inl e ->
    stage_raises message session_context e
| raises_get_workflow lang normalized ic ents :
    detect_language message = inr lang ->
    normalize_message message = inr normalized ->
    detect_primary_intent normalized = inr ic ->
    extract_entities message (fst ic) = inr ents ->
    get_workflow (fst ic) ents session_context = inl e ->
    stage_raises message session_context e
| raises_get_suggestions lang normalized ic ents wf :
    detect_language message = inr lang ->
    normalize_message message = inr normalized ->
    detect_primary_intent normalized = inr ic ->
    extract_entities message (fst ic) = inr ents ->
    get_workflow (fst ic) ents session_context = inr wf ->
    get_suggestions (fst ic) wf = inl e ->
    stage_raises message session_context e
| raises_needs_confirmation lang normalized ic ents wf suggestions :
    detect_language message = inr lang ->
    normalize_message message = inr normalized ->
    detect_primary_intent normalized = inr ic ->
    extract_entities message (fst ic) = inr ents ->
    get_workflow (fst ic) ents session_context = inr wf ->
    get_suggestions (fst ic) wf = inr suggestions ->
    needs_confirmation (fst ic) = inl e ->
    stage_raises message session_context e
| raises_is_conversational lang normalized ic ents wf suggestions rc :
    detect_language message = inr lang ->
    normalize_message message = inr normalized ->
    detect_primary_intent normalized = inr ic ->
    extract_entities message (fst ic) = inr ents ->
    get_workflow (fst ic) ents session_context = inr wf ->
    get_suggestions (fst ic) wf = inr suggestions ->
    needs_confirmation (fst ic) = inr rc ->
    is_conversational_of (fst ic) = inl e ->
    stage_raises message session_context e.

End Detect.

(** A method that receives something that is not a [str] raises when it
    first uses it ([re.findall] a [TypeError], [.lower()] an
    [AttributeError]). *)
Definition on_str {A} (e : exn) (f : string -> A) (v : pyval) : M A :=
  match v with
  | PStr s => ret (f s)
  | _ => raise e
  end.

(** [__init__]: [self.language = 'en'] *)
Definition init_language : string := "en".

Definition detect : string -> pyval -> option (list (gmap string string)) ->
    option (gmap string pyval) -> IntentResult * string :=
  detect_with
    (on_str TypeError _detect_language)
    (on_str AttributeError _normalize_message)
    (fun normalized => ret (_detect_primary_intent normalized))
    (fun message intent => on_str TypeError (fun s => _extract_entities s intent) message)
    (fun intent ents ctx => ret (_get_workflow intent ents ctx))
    (fun intent wf => ret (_get_suggestions intent wf))
    (fun intent => ret (_needs_confirmation intent))
    (fun intent => ret (_is_conversational intent)).

End IntentDetector.

(** ** [language_service.py]: class [LanguageDetector] *)

Module LanguageDetector.
Import Re.

Definition KISWAHILI_VOCABULARY : gset string :=
  list_to_set
  [ "habari"; "asante"; "karibu"; "pole"; "sawa"; "ndiyo"; "hapana";
    "tafadhali"; "rafiki"; "msaada"; "tupo"; "sana"; "kwa"; "na"; "ni";
    "kupata"; "kusaidia"; "kufanya"; "kufikia"; "kuenda"; "kujibu";
    "kufungua"; "kuandika"; "kuanguka"; "kufa"; "kutegemea";
    "mtu"; "watu"; "kitu"; "vitu"; "sehemu"; "mahali";
    "asubuhi"; "alasiri"; "jioni"; "usiku"; "siku"; "wiki"; "mwezi";
    "mwaka"; "muda"; "wakati"; "saa"; "dakika"; "sekunde";
    "namba"; "idadi"; "kila"; "moja"; "mbili"; "tatu"; "nne";
    "kra"; "pin"; "itax"; "serikali"; "huduma"; "fomu"; "karatasi";
    "hata"; "kama"; "lakini"; "ingawa"; "wakati"; "baada"; "kabla";
    "kutoka"; "kwenda"; "huko"; "hapa"; "hapo"; "sini"; "juu";
    "chini"; "karibu"; "mbali"; "jibu"; "swali"; "ujumbe"; "ujumuika" ].

Definition ENGLISH_VOCABULARY : gset string :=
  list_to_set
  [ "hello"; "thank"; "please"; "help"; "friend"; "nil"; "returns";
    "file"; "password"; "login"; "submit"; "form"; "booking";
    "appointment"; "service"; "government"; "portal"; "access";
    "recovery"; "registration"; "confirmation"; "sms" ].

Definition a_z : ascii -> bool := between 97 122.

Definition KISWAHILI_PATTERNS : list regex :=
  [ (* \b[a-z]{2,}[iaeou][aeiou]+ *)
    Cat Bnd (Cat (Rep a_z 2 None) (Cat (Cls (one_of "iaeou")) (Plus (one_of "aeiou"))));
    (* \bk[ua]\w+ *)
    Cat Bnd (Cat (Chr "k") (Cat (Cls (one_of "ua")) (Plus is_word)));
    (* \bm[ao]\w+ *)
    Cat Bnd (Cat (Chr "m") (Cat (Cls (one_of "ao")) (Plus is_word)));
    (* \b(ni|na|ja|li|tu|wa)\w+ *)
    Cat Bnd (Cat (AltL (map Lit ["ni"; "na"; "ja"; "li"; "tu"; "wa"])) (Plus is_word)) ].

(** [[a-z]+'[a-z]+] *)
Definition contraction_re : regex :=
  Cat (Plus a_z) (Cat (Chr "'") (Plus a_z)).

(** [\b(the|a|an|is|are|be|been|have|has|do|does|did)\b] *)
Definition function_word_re : regex :=
  Cat Bnd (Cat (AltL (map Lit ["the"; "a"; "an"; "is"; "are"; "be"; "been";
                               "have"; "has"; "do"; "does"; "did"])) Bnd).

Definition sw_phrases : list string :=
  [ "nataka"; "karibu"; "asante"; "tafadhali"; "je"; "nini";
    "wakati gani"; "siku gani"; "wapi"; "nani"; "lini" ].

Definition en_phrases : list string :=
  [ "file nil"; "kra pin"; "recover pin"; "itax"; "help me";
    "how to"; "what is"; "where is"; "when can"; "do i" ].

(** [sum(1 for x in l if test(x))] *)
Definition count {A} (test : A -> bool) (l : list A) : nat :=
  List.length (List.filter test l).

Definition is_match (r : regex) (s : string) : bool :=
  match search r s with
  | Some _ => true
  | None => false
  end.

(** [re.sub(r'[^\w]', '', word.lower())] *)
Definition _normalize_word (word : string) : string :=
  remove_all (Cls (fun c => negb (is_word c))) (lower word).

Definition _score_kiswahili (text : string) : Q :=
  let score := 0.0%Q in
  let words := Str.split text in
  let sw_word_count :=
    count (fun word => bool_decide (_normalize_word word ∈ KISWAHILI_VOCABULARY)) words in
  let score :=
    if (0 <? List.length words)%nat
    then fadd score (fmul (true_div sw_word_count (List.length words)) (lit 0.5))
    else score in
  let pattern_matches := count (fun pattern => is_match pattern text) KISWAHILI_PATTERNS in
  let score :=
    fadd score
      (fmul (true_div pattern_matches (List.length KISWAHILI_PATTERNS)) (lit 0.3)) in
  let phrase_count := count (fun phrase => py_in phrase text) sw_phrases in
  let score := fadd score (qmin (fmul (of_int phrase_count) (lit 0.1)) (lit 0.2)) in
  qmin score 1.0%Q.

Definition _score_english (text : string) : Q :=
  let score := 0.0%Q in
  let words := Str.split text in
  let en_word_count :=
    count (fun word => bool_decide (_normalize_word word ∈ ENGLISH_VOCABULARY)) words in
  let score :=
    if (0 <? List.length words)%nat
    then fadd score (fmul (true_div en_word_count (List.length words)) (lit 0.4))
    else score in
  let score := if is_match contraction_re text then fadd score (lit 0.2) else score in
  let score := if is_match function_word_re text then fadd score (lit 0.3) else score in
  let phrase_count := count (fun phrase => py_in phrase text) en_phrases in
  let score := fadd score (qmin (fmul (of_int phrase_count) (lit 0.1)) (lit 0.2)) in
  qmin score 1.0%Q.

(** [session_context and session_context.get('preferred_language')],
    as the condition of an [if]. *)
Definition pinned (session_context : option (gmap string pyval)) : bool :=
  match session_context with
  | None => false
  | Some d =>
      negb (bool_decide (d = ∅)) &&
      truthy (default PNone (d !! "preferred_language"))
  end.

(** [session_context['preferred_language']] *)
Definition preferred_language (session_context : option (gmap string pyval))
    : M pyval :=
  match session_context with
  | Some d =>
      match d !! "preferred_language" with
      | Some v => ret v
      | None => raise (OtherError "KeyError")
      end
  | None => raise TypeError
  end.

(** [text.lower().strip()]; what is not a [str] has no [lower]. *)
Definition on_lower (text : pyval) : M string :=
  match text with
  | PStr s => ret (strip (lower s))
  | _ => raise AttributeError
  end.

(** The [try] block of [detect]. *)
Definition detect_body (text : pyval) (session_context : option (gmap string pyval))
    : M (pyval * Q) :=
  if pinned session_context then
    let* v := preferred_language session_context in
    ret (v, 1.0%Q)
  else
    let* normalized_text := on_lower text in
    let sw_score := _score_kiswahili normalized_text in
    let en_score := _score_english normalized_text in
    if Qlt_bool (fadd en_score (lit 0.2)) sw_score then
      let confidence :=
        qmin (if Qlt_bool 0 (fadd sw_score en_score)
              then fdiv sw_score (fadd sw_score en_score) else 0.6%Q) 1.0%Q in
      ret (PStr "sw", confidence)
    else
      let confidence :=
        qmin (if Qlt_bool 0 (fadd sw_score en_score)
              then fdiv en_score (fadd sw_score en_score) else 0.6%Q) 1.0%Q in
      ret (PStr "en", confidence).

Definition detect (text : pyval) (session_context : option (gmap string pyval))
    : pyval * Q :=
  match detect_body text session_context with
  | inr result => result
  | inl e => (PStr "en", 0.5%Q)
  end.

(** *** [detect_code_switches] *)

Record Segment : Type := {
  seg_text : string;          (* 'text' *)
  seg_language : pyval;       (* 'language' *)
  seg_start : Z;              (* 'start' *)
  seg_end : Z                 (* 'end' *)
}.

(** The local variables of the loop. *)
Record Scan : Type := {
  segments : list Segment;
  current_language : pyval;
  current_segment : string;
  current_start : Z
}.

Definition scan_init : Scan :=
  {| segments := [];
     current_language := PNone;
     current_segment := "";
     current_start := 0 |}.

Section CodeSwitches.

(** [self.detect(sentence)] *)
Variable detect_sentence : string -> pyval * Q.

(** One turn of [for sentence in sentences]. *)
Definition scan_step (text : string) (st : Scan) (sentence : string) : Scan :=
  if String.eqb (strip sentence) "" then st
  else
    let detected_lang := fst (detect_sentence sentence) in
    if py_ne detected_lang (current_language st) then
      let segs :=
        if negb (String.eqb (current_segment st) "") then
          (segments st ++
           [ {| seg_text := strip (current_segment st);
                seg_language := current_language st;
                seg_start := current_start st;
                seg_end := current_start st + len (current_segment st) |} ])%list
        else segments st in
      let seg := sentence ++ ". " in
      {| segments := segs;
         current_language := detected_lang;
         current_segment := seg;
         current_start := len text - len seg |}
    else
      {| segments := segments st;
         current_language := current_language st;
         current_segment := current_segment st ++ sentence ++ ". ";
         current_start := current_start st |}.

(** The final segment. *)
Definition scan_finish (text : string) (st : Scan) : list Segment :=
  if negb (String.eqb (current_segment st) "") then
    (segments st ++
     [ {| seg_text := strip (current_segment st);
          seg_language := current_language st;
          seg_start := len text - len (current_segment st);
          seg_end := len text |} ])%list
  else segments st.

Definition code_switches_with (text : string) : list Segment :=
  let sentences := Re.split (Cls (one_of ".!?")) text in
  scan_finish text (fold_left (scan_step text) sentences scan_init).

End CodeSwitches.

Definition detect_code_switches (text : string) : list Segment :=
  code_switches_with (fun sentence => detect (PStr sentence) None) text.

(** *** [set_session_language]

    [session_language] is the attribute [self.session_language] on
    entry; the answer holds its value on exit and the caller's
    [context] after the call (the method writes into the dict it is
    given). *)
Definition set_session_language (session_language : pyval) (language : pyval)
    (context : option (gmap string pyval)) : pyval * option (gmap string pyval) :=
  if existsb (py_eq language) [PStr "en"; PStr "sw"] then
    (language,
     match context with
     | Some d => Some (<["preferred_language" := language]> d)
     | None => None
     end)
  else (session_language, context).

(** *** [supports_code_switching] *)
Definition supports_code_switching : bool := true.

(** *** [translate_intent_keywords] *)

Definition intent_translations : gmap string (gmap string (list string)) :=
  {[ "kra_nil_returns" :=
       {[ "en" := ["nil returns"; "zero returns"; "file nil"; "no income";
                   "annual returns"];
          "sw" := ["nil returns"; "kurudi sifuri"; "kurudi tupu";
                   "hakuna pendapatan"; "kurudi kila mwaka"] ]};
     "kra_pin_recovery" :=
       {[ "en" := ["recover pin"; "reset pin"; "forgot pin"; "lost pin";
                   "pin recovery"];
          "sw" := ["komboa pin"; "badili pin"; "sahau pin"; "pin iliyopotozwa";
                   "kukomboa pin"] ]};
     "kra_pin_generation" :=
       {[ "en" := ["get pin"; "generate pin"; "new pin"; "apply for pin";
                   "pin application"];
          "sw" := ["pata pin"; "tengeneza pin"; "pin mpya"; "omba pin";
                   "ombi la pin"] ]};
     "itax_help" :=
       {[ "en" := ["itax"; "login"; "password"; "access itax"; "itax portal"];
          "sw" := ["itax"; "ingia"; "neno siri"; "ingilia itax";
                   "mradi wa itax"] ]} ]}.

(** [intent_translations.get(intent, {}).get(target_language, [])] *)
Definition translate_intent_keywords (intent target_language : string)
    : list string :=
  default [] (default ∅ (intent_translations !! intent) !! target_language).

End LanguageDetector.

(** ** [gemini_service.py]: the fallback classifier of [GeminiService] *)

Module GeminiService.

Definition _detect_basic_intent (message : string) : string :=
  let message_lower := lower message in
  if any_in ["hello"; "hi"; "hey"; "good morning"; "good afternoon";
             "good evening"] message_lower then "greeting"
  else if any_in ["book"; "appointment"; "schedule"] message_lower then
    "book_appointment"
  else if any_in ["passport"; "id"; "license"; "conduct"] message_lower then
    "service_info"
  else if any_in ["help"; "assist"; "support"] message_lower then "help"
  else if any_in ["yes"; "confirm"; "okay"; "sure"] message_lower then "confirm"
  else if any_in ["no"; "cancel"; "stop"] message_lower then "cancel"
  else "unknown".

End GeminiService.

(** ** Predicates of the statements *)

Module Shapes.
Import Re.

Fixpoint all_chars (p : ascii -> bool) (s : string) : bool :=
  match s with
  | EmptyString => true
  | String c s' => p c && all_chars p s'
  end.

(** Nine digits, the first of them 1 or 7: what [[17]\d{8}] reads. *)
Definition subscriber (s : string) : bool :=
  match s with
  | String c ds => one_of "17" c && (String.length ds =? 8)%nat && all_chars is_digit ds
  | EmptyString => false
  end.

(** The two shapes of the specification: a 10-digit number that begins
    with 07 or 01, or +254 followed by 9 digits that begin with 1 or 7. *)
Definition spec_kenyan_mobile (s : string) : bool :=
  match s with
  | String "0" body => subscriber body
  | String "+" (String "2" (String "5" (String "4" body))) => subscriber body
  | _ => false
  end.

(** What [(?:\+254|0)?[17]\d{8}] reads: the prefix may be missing. *)
Definition phone_shape (s : string) : bool :=
  subscriber s || spec_kenyan_mobile s.

(** The character before the end of [m], when [prev] is the one before
    its start. *)
Fixpoint last_char (prev : option ascii) (m : string) : option ascii :=
  match m with
  | EmptyString => prev
  | String c m' => last_char (Some c) m'
  end.

(** [matches ic r prev m rest]: the pattern [r] reads exactly [m], in a
    text where [prev] comes before [m] and [rest] after it. *)
Inductive matches (ic : bool) : regex -> option ascii -> string -> string -> Prop :=
| matches_eps prev rest :
    matches ic Eps prev "" rest
| matches_chr c x prev rest :
    chr_ok ic c x = true ->
    matches ic (Chr c) prev (String x "") rest
| matches_cls p x prev rest :
    cls_ok ic p x = true ->
    matches ic (Cls p) prev (String x "") rest
| matches_cat r1 r2 prev m1 m2 rest :
    matches ic r1 prev m1 (m2 ++ rest) ->
    matches ic r2 (last_char prev m1) m2 rest ->
    matches ic (Cat r1 r2) prev (m1 ++ m2) rest
| matches_alt_l r1 r2 prev m rest :
    matches ic r1 prev m rest ->
    matches ic (Alt r1 r2) prev m rest
| matches_alt_r r1 r2 prev m rest :
    matches ic r2 prev m rest ->
    matches ic (Alt r1 r2) prev m rest
| matches_rep p lo hi prev m rest :
    all_chars (cls_ok ic p) m = true ->
    (lo <= String.length m)%nat ->
    (forall h, hi = Some h -> (String.length m <= h)%nat) ->
    matches ic (Rep p lo hi) prev m rest
| matches_bnd prev rest :
    xorb (word_at prev) (word_at (head rest)) = true ->
    matches ic Bnd prev "" rest.

(** No two neighbours of a list of language tags are the same. *)
Fixpoint alternating (l : list pyval) : Prop :=
  match l with
  | a :: (b :: _) as tl => a <> b /\ alternating tl
  | _ => True
  end.

(** What the loop of [detect_code_switches] keeps true: the tags of the
    segments emitted so far, followed by the tag of the segment being
    accumulated, alternate; and nothing is emitted before a first
    sentence has been accumulated. *)
Definition scan_ok (st : LanguageDetector.Scan) : Prop :=
  alternating
    (map LanguageDetector.seg_language (LanguageDetector.segments st)
       ++ [LanguageDetector.current_language st])%list /\
  (LanguageDetector.current_segment st = "" -> LanguageDetector.segments st = []).

(** The sentences of [text] that are not blank, in their order, each
    with the language tag that [detect_sentence] gives it. *)
Definition tagged_sentences (detect_sentence : string -> pyval * Q) (text : string)
    : list (pyval * string) :=
  map (fun sentence => (fst (detect_sentence sentence), sentence))
    (List.filter (fun sentence => negb (String.eqb (strip sentence) ""))
       (Re.split (Cls (one_of ".!?")) text)).

(** A run is a language tag and the text of the sentences merged under
    it.  [prepend_run tag body runs] puts [body] in front of [runs]: it
    is merged into the first run when that one has the same tag, and is
    a run of its own otherwise. *)
Definition prepend_run (tag : pyval) (body : string) (runs : list (pyval * string))
    : list (pyval * string) :=
  match runs with
  | (tag', body') :: others =>
      if py_eq tag tag' then (tag, body ++ body') :: others
      else (tag, body) :: runs
  | [] => [(tag, body)]
  end.

(** The maximal runs of neighbours with the same tag: every sentence,
    followed by a full stop and a blank, is merged with the neighbours
    of its language. *)
Fixpoint merge_runs (sentences : list (pyval * string)) : list (pyval * string) :=
  match sentences with
  | [] => []
  | (tag, sentence) :: rest => prepend_run tag (sentence ++ ". ") (merge_runs rest)
  end.

(** The language and the text of a run, as a segment reports them. *)
Definition run_segment (run : pyval * string) : pyval * string :=
  (fst run, strip (snd run)).

(** The language and the text of a segment. *)
Definition language_and_text (seg : LanguageDetector.Segment) : pyval * string :=
  (LanguageDetector.seg_language seg, LanguageDetector.seg_text seg).

End Shapes.

(** ** The utterances of the specification's examples *)

Module Utterances.

Definition weather : string := "What's the weather today?".

Definition nataka : string :=
  "Nataka kusaidia, nambari yangu ya simu ni 0712345678".

Definition nil_returns : string :=
  "Hello! I want to file nil returns, my KRA pin is 1234567890".

Definition HELP_SUGGESTIONS : list string :=
  [ "Can you help me navigate?"; "What services are available?";
    "Go back to main menu" ].

Definition two_languages : string :=
  "Hello, please help me. Nataka kusaidia.".

Definition three_sentences : string :=
  "Hello friend! Please help me. Nataka kusaidia.".

(** Kiswahili score 0.9, English score 0.7. *)
Definition close_scores : string :=
  "kra pin itax n'a kusaidia moja watu karibu".

(** The intents of the rules that come before the booking rule and
    whose keywords can be found in a text that contains [book]. *)
Definition EARLIER_INTENTS : list string :=
  [ IntentDetector.INTENT_KRA_NIL_RETURNS; IntentDetector.INTENT_KRA_PIN_RECOVERY;
    IntentDetector.INTENT_KRA_PIN_GENERATION; IntentDetector.INTENT_ITAX_HELP;
    IntentDetector.INTENT_GREETING; IntentDetector.INTENT_HELP;
    IntentDetector.INTENT_CONFIRMATION ].

End Utterances.

(** ** Measures used by the further properties *)

Module Measures.

(** How many characters of [s] satisfy [p]. *)
Fixpoint count_chars (p : ascii -> bool) (s : string) : nat :=
  match s with
  | EmptyString => O
  | String c s' => (if p c then 1 else 0) + count_chars p s'
  end.

(** [s.endswith(suffix)] *)
Fixpoint ends_with (suffix s : string) : bool :=
  String.eqb s suffix ||
  match s with
  | EmptyString => false
  | String _ s' => ends_with suffix s'
  end.

(** The tags that [_detect_primary_intent] can answer with. *)
Definition CLASSIFIER_INTENTS : list string :=
  [ IntentDetector.INTENT_KRA_NIL_RETURNS; IntentDetector.INTENT_KRA_PIN_RECOVERY;
    IntentDetector.INTENT_KRA_PIN_GENERATION; IntentDetector.INTENT_ITAX_HELP;
    IntentDetector.INTENT_GREETING; IntentDetector.INTENT_HELP;
    IntentDetector.INTENT_CONFIRMATION; "negate";
    IntentDetector.INTENT_SERVICE_INQUIRY; IntentDetector.INTENT_BOOKING;
    IntentDetector.INTENT_UNKNOWN ].

(** The intents that the table of [translate_intent_keywords] knows. *)
Definition TRANSLATED_INTENTS : list string :=
  ["kra_nil_returns"; "kra_pin_recovery"; "kra_pin_generation"; "itax_help"].

(** A digit, or a whitespace character other than the blank. *)
Definition digit_or_gap (c : ascii) : bool :=
  is_digit c || (is_space c && negb (Ascii.eqb c " ")).

(** A sentence terminator of [detect_code_switches]: [[.!?]]. *)
Definition is_terminator : ascii -> bool := Re.one_of ".!?".

(** The tags that [_detect_basic_intent] can answer with, and those of
    them that [_detect_primary_intent] can answer with too. *)
Definition BASIC_INTENTS : list string :=
  ["greeting"; "book_appointment"; "service_info"; "help"; "confirm";
   "cancel"; "unknown"].

Definition SHARED_INTENTS : list string :=
  ["greeting"; "book_appointment"; "help"; "confirm"; "unknown"].

Definition BASIC_GREETINGS : list string :=
  ["hello"; "hi"; "hey"; "good morning"; "good afternoon"; "good evening"].

(** One of the two language tags. *)
Definition tag_ok (v : pyval) : Prop := v = PStr "en" \/ v = PStr "sw".

(** A segment with a language tag, a text that ends with a full stop,
    and a span of at least three characters. *)
Definition segment_ok (seg : LanguageDetector.Segment) : Prop :=
  tag_ok (LanguageDetector.seg_language seg) /\
  ends_with "." (LanguageDetector.seg_text seg) = true /\
  (LanguageDetector.seg_start seg + 3 <= LanguageDetector.seg_end seg)%Z.

(** What the loop of [detect_code_switches] keeps true of its
    variables: the segments emitted are well formed, and either nothing
    has been read yet, or the segment being accumulated is a text that
    is not empty followed by ". ", with a language tag. *)
Definition scan_wf (st : LanguageDetector.Scan) : Prop :=
  Forall segment_ok (LanguageDetector.segments st) /\
  ((LanguageDetector.current_segment st = "" /\
    LanguageDetector.current_language st = PNone /\
    LanguageDetector.segments st = []) \/
   (exists body,
      LanguageDetector.current_segment st = body ++ ". " /\ body <> "" /\
      tag_ok (LanguageDetector.current_language st))).

End Measures.

(** * Properties *)

(** ** The orchestration of [IntentDetector.detect] *)

Module DetectProps.
Import IntentDetector.

Section AnyStages.

Variable detect_language : pyval -> M string.
Variable normalize_message : pyval -> M string.
Variable detect_primary_intent : string -> M (string * Q).
Variable extract_entities : pyval -> string -> M (gmap string pyval).
Variable get_workflow :
  string -> gmap string pyval -> option (gmap string pyval) -> M (option Workflow).
Variable get_suggestions : string -> option Workflow -> M (list string).
Variable needs_confirmation : string -> M bool.
Variable is_conversational_of : string -> M bool.

Local Abbreviation run_detect :=
  (detect_with detect_language normalize_message detect_primary_intent
     extract_entities get_workflow get_suggestions needs_confirmation
     is_conversational_of).

Local Abbreviation raises :=
  (stage_raises detect_language normalize_message detect_primary_intent
     extract_entities get_workflow get_suggestions needs_confirmation
     is_conversational_of).

Lemma later_stage_raises lang message session_context e :
  detect_language message = inr lang ->
  raises message session_context e ->
  detect_rest normalize_message detect_primary_intent extract_entities
    get_workflow get_suggestions needs_confirmation is_conversational_of
    lang message session_context = inl e.
Proof.
  intros Hlang Hraise. unfold detect_rest.
  destruct Hraise;
    repeat match goal with
    | H : ?f = inr _ |- context [?f] => rewrite H; cbn [bind]
    | H : ?f = inl _ |- context [?f] => rewrite H; cbn [bind]
    end; congruence.
Qed.

(** C8. Whatever the methods called by [detect] do, and whatever the
    message, the history and the session context are: when one of the
    stages of the [try] block raises an exception on the values that
    reach it, [detect] answers with the fixed error result (intent
    [unknown], confidence 0, no entities, no workflow, the single
    clarification prompt).  [detect] gives its caller a result and
    nothing else: no exception leaves it. *)
Theorem detect_catches_stage_exceptions
    (self_language : string) (message : pyval)
    (conversation_history : option (list (gmap string string)))
    (session_context : option (gmap string pyval)) (e : exn) :
  raises message session_context e ->
  let result :=
    fst (run_detect self_language message conversation_history session_context) in
  intent result = INTENT_UNKNOWN /\
  confidence result = 0.0%Q /\
  entities result = ∅ /\
  workflow result = None /\
  suggested_actions result = ["Could you clarify what you need?"] /\
  exists lang,
    run_detect self_language message conversation_history session_context
    = (error_result lang, lang).
Proof.
  intros Hraise. unfold detect_with, detect_try. cbn zeta.
  destruct (detect_language message) as [e0 | lang] eqn:Hlang.
  - cbn. repeat split; eauto.
  - rewrite (later_stage_raises lang message session_context e Hlang Hraise).
    cbn. repeat split; eauto.
Qed.

End AnyStages.

(** The stages of the class itself, on a message that is [None]:
    [re.findall] raises. *)
Lemma detect_catches_stage_exceptions_witness :
  let result := fst (detect init_language PNone None None) in
  intent result = INTENT_UNKNOWN /\
  confidence result = 0.0%Q /\
  entities result = ∅ /\
  workflow result = None /\
  suggested_actions result = ["Could you clarify what you need?"] /\
  exists lang,
    detect init_language PNone None None = (error_result lang, lang).
Proof.
  unfold detect.
  apply (detect_catches_stage_exceptions _ _ _ _ _ _ _ _
           init_language PNone None None TypeError).
  apply raises_detect_language. reflexivity.
Defined.

End DetectProps.

(** ** The pipeline on the utterances of the specification *)

Module Examples.
Import IntentDetector Utterances.

(** The utterance contains the help keyword [what]: rule 6 fires and the
    fallback is never reached. *)
Lemma weather_is_not_unknown :
  ~ (let result := fst (detect init_language (PStr weather) None None) in
     intent result = INTENT_UNKNOWN /\
     (confidence result == 0.5)%Q /\
     workflow result = None /\
     suggested_actions result = FALLBACK_SUGGESTIONS).
Proof.
  vm_compute. intros [Hintent _]. discriminate Hintent.
Qed.

(** C2, as the code has it. For the utterance "What's the weather
    today?", whatever [self.language] was before, [detect] returns the
    intent [help] with confidence 0.85, no workflow, and the three
    suggestions of the help intent. *)
Theorem weather_is_help (self_language : string) :
  let result := fst (detect self_language (PStr weather) None None) in
  intent result = INTENT_HELP /\
  confidence result = 0.85%Q /\
  workflow result = None /\
  suggested_actions result = HELP_SUGGESTIONS /\
  List.length (suggested_actions result) = 3%nat.
Proof.
  vm_compute. repeat split.
Qed.

(** The three patterns of [_detect_language] are found once, never and
    twice: the score is 3, which is not above 3. *)
Lemma nataka_pipeline_language_is_not_sw :
  ~ (let result := fst (detect init_language (PStr nataka) None None) in
     language result = "sw" /\
     entities result !! "phone_number" = Some (PStr "0712345678")).
Proof.
  vm_compute. intros [Hlang _]. discriminate Hlang.
Qed.

(** C3, as the code has it. For the utterance "Nataka kusaidia, nambari
    yangu ya simu ni 0712345678", [LanguageDetector.detect] answers [sw]
    (with confidence 1), the entities of the pipeline hold
    [phone_number = "0712345678"], and the language of the aggregated
    result, which [IntentDetector._detect_language] computes, is [en]. *)
Theorem nataka_language_and_phone (self_language : string) :
  let result := fst (detect self_language (PStr nataka) None None) in
  fst (LanguageDetector.detect (PStr nataka) None) = PStr "sw" /\
  (snd (LanguageDetector.detect (PStr nataka) None) == 1)%Q /\
  entities result !! "phone_number" = Some (PStr "0712345678") /\
  language result = "en".
Proof.
  vm_compute. repeat split.
Qed.

(** C1, on the end-to-end utterance of the specification. The literal
    1234567890 is stored as [kra_pin], and its first eight digits are
    stored as [national_id]: the second alternative of the identity
    pattern has no word boundary. *)
Theorem ten_digit_literal_fills_national_id :
  let result := fst (detect init_language (PStr nil_returns) None None) in
  intent result = INTENT_KRA_NIL_RETURNS /\
  entities result !! "kra_pin" = Some (PStr "1234567890") /\
  entities result !! "national_id" = Some (PStr "12345678") /\
  _extract_entities "1234567890" INTENT_UNKNOWN !! "national_id"
    = Some (PStr "12345678").
Proof.
  vm_compute. repeat split.
Qed.

(** The greeting intent has four suggestions. *)
Lemma greeting_suggestions_not_three :
  List.length (_get_suggestions INTENT_GREETING None) <> 3%nat.
Proof.
  vm_compute. discriminate.
Qed.

(** C6, as the code has it. For the greeting intent, whatever the
    workflow, [_get_suggestions] returns exactly these four strings, in
    this order. *)
Theorem greeting_suggestions (workflow : option Workflow) :
  _get_suggestions INTENT_GREETING workflow =
    [ "File nil returns"; "Recover my KRA PIN"; "Get a KRA PIN";
      "Book an appointment" ] /\
  List.length (_get_suggestions INTENT_GREETING workflow) = 4%nat.
Proof.
  split; reflexivity.
Qed.

End Examples.

(** ** Facts about [str] *)

Module StrFacts.

Lemma app_cons (c : ascii) (a b : string) : String c a ++ b = String c (a ++ b).
Proof. reflexivity. Qed.

Lemma starts_with_app (p s : string) :
  starts_with p s = true <-> exists post, s = p ++ post.
Proof.
  revert s. induction p as [| a p IH]; intros s; cbn.
  - split; [intros _; exists s; reflexivity | reflexivity].
  - destruct s as [| b s].
    + split; [discriminate | intros [post H]; discriminate H].
    + rewrite andb_true_iff, Ascii.eqb_eq, IH. split.
      * intros [-> [post ->]]. exists post. reflexivity.
      * intros [post H]. injection H as -> ->. split; [reflexivity | eauto].
Qed.

Lemma py_in_app (sub s : string) :
  py_in sub s = true <-> exists pre post, s = pre ++ sub ++ post.
Proof.
  induction s as [| c s IH].
  - cbn [py_in]. rewrite orb_false_r, starts_with_app. split.
    + intros [post H]. exists "", post. exact H.
    + intros [pre [post H]]. destruct pre; [eauto | discriminate H].
  - cbn [py_in]. rewrite orb_true_iff, starts_with_app, IH. split.
    + intros [[post H] | [pre [post H]]].
      * exists "", post. exact H.
      * exists (String c pre), post. rewrite H. reflexivity.
    + intros [pre [post H]]. destruct pre as [| a pre].
      * left. exists post. exact H.
      * right. injection H as _ H. eauto.
Qed.

Lemma app_assoc (a b c : string) : (a ++ b) ++ c = a ++ b ++ c.
Proof. induction a as [| x a IH]; [reflexivity |]. rewrite !app_cons, IH. reflexivity. Qed.

Lemma app_empty_r (a : string) : a ++ "" = a.
Proof. induction a as [| x a IH]; [reflexivity |]. rewrite app_cons, IH. reflexivity. Qed.

(** A substring of a substring is a substring. *)
Lemma py_in_trans (a b s : string) :
  py_in a b = true -> py_in b s = true -> py_in a s = true.
Proof.
  rewrite !py_in_app. intros [p1 [q1 ->]] [p2 [q2 ->]].
  exists (p2 ++ p1), (q1 ++ q2). now rewrite !app_assoc.
Qed.

Lemma py_in_prefix (m rest : string) : py_in m (m ++ rest) = true.
Proof. apply py_in_app. exists "", rest. reflexivity. Qed.

Lemma py_in_cons (m s : string) (c : ascii) :
  py_in m s = true -> py_in m (String c s) = true.
Proof. intros H. cbn [py_in]. rewrite H. apply orb_true_r. Qed.

Lemma length_app (a b : string) :
  String.length (a ++ b) = (String.length a + String.length b)%nat.
Proof.
  induction a as [| x a IH]; [reflexivity |].
  rewrite app_cons. cbn [String.length]. rewrite IH. reflexivity.
Qed.

Lemma take_app (m rest : string) : take (String.length m) (m ++ rest) = m.
Proof.
  induction m as [| c m IH].
  - destruct rest; reflexivity.
  - rewrite app_cons. cbn [String.length take]. rewrite IH. reflexivity.
Qed.

Lemma lower_char_space (c : ascii) : is_space c = true -> lower_char c = c.
Proof.
  destruct c as [[] [] [] [] [] [] [] []]; vm_compute; congruence.
Qed.

Lemma lstrip_spaces (s : string) :
  Shapes.all_chars is_space s = true -> lstrip (lower s) = "".
Proof.
  induction s as [| c s IH]; cbn; [reflexivity |].
  intros [Hc Hs]%andb_true_iff.
  rewrite (lower_char_space c Hc), Hc. auto.
Qed.

Lemma strip_spaces (s : string) :
  Shapes.all_chars is_space s = true -> strip (lower s) = "".
Proof.
  intros H. unfold strip. rewrite (lstrip_spaces s H). reflexivity.
Qed.

Lemma py_eq_refl (v : pyval) : py_eq v v = true.
Proof.
  destruct v; cbn; auto using Bool.eqb_reflx, Z.eqb_refl, String.eqb_refl.
Qed.

Lemma py_ne_neq (a b : pyval) : py_ne a b = true -> a <> b.
Proof.
  unfold py_ne. intros H ->. rewrite py_eq_refl in H. discriminate H.
Qed.

End StrFacts.

(** ** The ordered rules of [_detect_primary_intent] *)

Module IntentProps.
Import IntentDetector StrFacts Utterances.

Lemma book_matches_confirmation (normalized : string) :
  py_in "book" normalized = true ->
  _matches_keywords normalized CONFIRMATION_KEYWORDS = true.
Proof.
  intros H. unfold _matches_keywords, any_in.
  apply existsb_exists. exists "ok". split.
  - cbn. tauto.
  - exact (py_in_trans "ok" "book" normalized eq_refl H).
Qed.

(** C9. Whenever the normalized text contains [book], the keyword [ok]
    of the confirmation rule is found in it, so the classifier answers
    with [confirm] or with the intent of a rule before it, and never
    with [book_appointment].  Whenever the classifier does answer
    [book_appointment], the text has no [book] in it and contains
    [appointment], [schedule] or [reserve]. *)
Theorem book_never_reaches_booking (normalized : string) :
  (py_in "book" normalized = true ->
     fst (_detect_primary_intent normalized) <> INTENT_BOOKING /\
     In (fst (_detect_primary_intent normalized)) EARLIER_INTENTS) /\
  (fst (_detect_primary_intent normalized) = INTENT_BOOKING ->
     py_in "book" normalized = false /\
     (py_in "appointment" normalized || py_in "schedule" normalized
      || py_in "reserve" normalized) = true).
Proof.
  unfold _detect_primary_intent. split.
  - intros Hbook. rewrite (book_matches_confirmation normalized Hbook).
    repeat match goal with
    | |- context [if ?b then _ else _] => destruct b
    end; cbn; (split; [discriminate | tauto]).
  - destruct (py_in "book" normalized) eqn:Hbook.
    + rewrite (book_matches_confirmation normalized Hbook).
      repeat match goal with
      | |- context [if ?b then _ else _] => destruct b
      end; cbn; discriminate.
    + repeat match goal with
      | |- context [if ?b then _ else _] => destruct b eqn:?
      end; cbn; try discriminate.
      intros _. split; [reflexivity |].
      match goal with
      | H : _matches_keywords normalized BOOKING_KEYWORDS = true |- _ =>
          unfold _matches_keywords, any_in, BOOKING_KEYWORDS in H;
          cbn [existsb] in H;
          rewrite Hbook, orb_false_r in H; cbn [orb] in H;
          rewrite orb_assoc in H; exact H
      end.
Qed.

Lemma book_never_reaches_booking_witness :
  (fst (_detect_primary_intent "book a room") <> INTENT_BOOKING /\
   In (fst (_detect_primary_intent "book a room")) EARLIER_INTENTS) /\
  (py_in "book" "appointment" = false /\
   (py_in "appointment" "appointment" || py_in "schedule" "appointment"
    || py_in "reserve" "appointment") = true).
Proof.
  split.
  - apply (proj1 (book_never_reaches_booking "book a room")). reflexivity.
  - apply (proj2 (book_never_reaches_booking "appointment")). reflexivity.
Defined.

End IntentProps.

(** ** [LanguageDetector.detect] and [detect_code_switches] *)

Module LanguageProps.
Import LanguageDetector StrFacts Shapes Utterances.

(** C10. Whatever the text is (a string or not), when the session
    context holds a truthy value [v] under [preferred_language],
    [detect] returns [v] itself with confidence 1.0: nothing restricts
    [v] to the two tags [en] and [sw]. *)
Theorem detect_returns_pinned_value
    (text : pyval) (session_context : gmap string pyval) (v : pyval) :
  session_context !! "preferred_language" = Some v ->
  truthy v = true ->
  detect text (Some session_context) = (v, 1.0%Q).
Proof.
  intros Hget Htruthy. unfold detect, detect_body, pinned, preferred_language.
  rewrite Hget. cbn [from_option id]. rewrite Htruthy.
  rewrite bool_decide_eq_false_2.
  - reflexivity.
  - intros ->. rewrite lookup_empty in Hget. discriminate Hget.
Qed.

Lemma detect_returns_pinned_value_witness :
  detect (PStr "Habari yako") (Some {["preferred_language" := PStr "fr"]})
  = (PStr "fr", 1.0%Q).
Proof.
  apply (detect_returns_pinned_value
           (PStr "Habari yako") {["preferred_language" := PStr "fr"]} (PStr "fr")).
  - reflexivity.
  - reflexivity.
Defined.

(** The empty utterance: both scores are zero, and the confidence is the
    default 0.6 of that case. *)
Lemma empty_text_confidence_is_not_half :
  ~ (fst (detect (PStr "") None) = PStr "en" /\
     (snd (detect (PStr "") None) == 0.5)%Q).
Proof.
  vm_compute. intros [_ H]. discriminate H.
Qed.

(** C4, as the code has it. For every utterance that consists of
    whitespace only (the empty string included), and every session
    context that pins no language, [detect] returns the language [en]
    with confidence 0.6, the default for two scores of zero. *)
Theorem whitespace_text_is_en_0_6
    (s : string) (session_context : option (gmap string pyval)) :
  all_chars is_space s = true ->
  pinned session_context = false ->
  detect (PStr s) session_context = (PStr "en", 0.6%Q).
Proof.
  intros Hspace Hpin. unfold detect, detect_body, on_lower.
  rewrite Hpin, (strip_spaces s Hspace). reflexivity.
Qed.

Lemma whitespace_text_is_en_0_6_witness :
  detect (PStr "   ") None = (PStr "en", 0.6%Q).
Proof.
  apply (whitespace_text_is_en_0_6 "   " None); reflexivity.
Defined.

Lemma alternating_snoc (l : list pyval) (a b : pyval) :
  alternating (l ++ [a])%list -> a <> b -> alternating ((l ++ [a]) ++ [b])%list.
Proof.
  induction l as [| x l IH]; intros Halt Hne.
  - cbn. auto.
  - destruct l as [| y l].
    + cbn in *. tauto.
    + cbn in Halt |- *. destruct Halt as [Hxy Hrest]. split; [exact Hxy |].
      apply IH; assumption.
Qed.

Lemma sentence_segment_nonempty (prefix sentence : string) :
  prefix ++ sentence ++ ". " <> "".
Proof.
  intros H. apply (f_equal String.length) in H. rewrite !length_app in H.
  cbn in H. lia.
Qed.

Section AnyDetector.

Variable detect_sentence : string -> pyval * Q.

Lemma scan_step_ok (text : string) (st : Scan) (sentence : string) :
  scan_ok st -> scan_ok (scan_step detect_sentence text st sentence).
Proof.
  intros [Halt Hfirst]. unfold scan_step.
  destruct (String.eqb (strip sentence) ""); [split; assumption |].
  destruct (py_ne (fst (detect_sentence sentence)) (current_language st)) eqn:Hne.
  - apply py_ne_neq in Hne.
    split; cbn [segments current_language current_segment].
    + destruct (String.eqb (current_segment st) "") eqn:Hseg; cbn [negb].
      * apply String.eqb_eq in Hseg. rewrite (Hfirst Hseg). cbn. exact I.
      * rewrite map_app. cbn [map seg_language].
        apply alternating_snoc; [exact Halt | congruence].
    + intros Hempty. destruct (sentence_segment_nonempty "" sentence Hempty).
  - split; cbn [segments current_language current_segment]; [exact Halt |].
    intros Hempty. destruct (sentence_segment_nonempty _ _ Hempty).
Qed.

Lemma scan_fold_ok (text : string) (sentences : list string) (st : Scan) :
  scan_ok st -> scan_ok (fold_left (scan_step detect_sentence text) sentences st).
Proof.
  revert st. induction sentences as [| sentence sentences IH]; intros st Hok.
  - exact Hok.
  - cbn [fold_left]. apply IH, scan_step_ok, Hok.
Qed.

Lemma alternating_init (l : list pyval) (a : pyval) :
  alternating (l ++ [a])%list -> alternating l.
Proof.
  induction l as [| x l IH]; intros H; [exact I |].
  destruct l as [| y l]; [exact I |].
  cbn in H |- *. destruct H as [Hxy Hrest]. split; [exact Hxy |].
  apply IH. exact Hrest.
Qed.

Lemma scan_finish_ok (text : string) (st : Scan) :
  scan_ok st -> alternating (map seg_language (scan_finish text st)).
Proof.
  intros [Halt Hfirst]. unfold scan_finish.
  destruct (String.eqb (current_segment st) "") eqn:Hseg; cbn [negb].
  - apply String.eqb_eq in Hseg. rewrite (Hfirst Hseg). exact I.
  - rewrite map_app. exact Halt.
Qed.

Lemma code_switches_with_alternate (text : string) :
  alternating (map seg_language (code_switches_with detect_sentence text)).
Proof.
  unfold code_switches_with. apply scan_finish_ok, scan_fold_ok.
  split; [exact I | reflexivity].
Qed.

(** [==] on tags is an equivalence. *)
Lemma py_eq_sym (a b : pyval) : py_eq a b = py_eq b a.
Proof.
  destruct a as [| x | x | x], b as [| y | y | y]; cbn; try reflexivity.
  - destruct x, y; reflexivity.
  - apply Z.eqb_sym.
  - apply String.eqb_sym.
Qed.

Lemma py_eq_trans (a b c : pyval) :
  py_eq a b = true -> py_eq a c = py_eq b c.
Proof.
  destruct a as [| x | x | x], b as [| y | y | y], c as [| z | z | z];
    cbn; intros H; try discriminate H; try reflexivity;
    repeat match goal with
      | E : Z.eqb _ _ = true |- _ => apply Z.eqb_eq in E
      | E : String.eqb _ _ = true |- _ => apply String.eqb_eq in E
      | E : Bool.eqb _ _ = true |- _ => apply Bool.eqb_prop in E
      end;
    subst; try reflexivity;
    repeat match goal with
      | v : bool |- _ => destruct v
      end;
    try reflexivity; try apply Z.eqb_sym;
    try (symmetry; apply Z.eqb_neq; discriminate).
Qed.

Lemma py_eq_none (v : pyval) : py_eq v PNone = true -> v = PNone.
Proof. destruct v; cbn; intros H; [reflexivity | discriminate H ..]. Qed.

(** The first run of [prepend_run tag body runs] carries [tag]. *)
Lemma prepend_run_head (tag : pyval) (body : string) (runs : list (pyval * string)) :
  exists body' others, prepend_run tag body runs = (tag, body') :: others.
Proof.
  destruct runs as [| [tag' body'] others]; cbn [prepend_run]; [eauto |].
  destruct (py_eq tag tag'); eauto.
Qed.

(** A sentence of the language being accumulated joins its run. *)
Lemma prepend_run_same (lang tag : pyval) (acc body : string)
    (runs : list (pyval * string)) :
  py_eq tag lang = true ->
  prepend_run lang acc (prepend_run tag body runs)
  = prepend_run lang (acc ++ body) runs.
Proof.
  intros Hsame. assert (Hlang : py_eq lang tag = true) by (rewrite py_eq_sym; exact Hsame).
  destruct runs as [| [tag' body'] others]; cbn [prepend_run].
  - rewrite Hlang. reflexivity.
  - rewrite (py_eq_trans lang tag tag' Hlang).
    destruct (py_eq tag tag'); cbn [prepend_run]; rewrite Hlang.
    + rewrite app_assoc. reflexivity.
    + reflexivity.
Qed.

(** A sentence of another language starts a run of its own. *)
Lemma prepend_run_other (lang tag : pyval) (acc body : string)
    (runs : list (pyval * string)) :
  py_eq tag lang = false ->
  prepend_run lang acc (prepend_run tag body runs)
  = (lang, acc) :: prepend_run tag body runs.
Proof.
  intros Hother. destruct (prepend_run_head tag body runs) as [body' [others ->]].
  cbn [prepend_run]. rewrite py_eq_sym, Hother. reflexivity.
Qed.

Local Abbreviation nonblank :=
  (fun sentence : string => negb (String.eqb (strip sentence) "")).
Local Abbreviation tagged :=
  (fun sentence : string => (fst (detect_sentence sentence), sentence)).

(** The loop, from a state in which a segment is being accumulated:
    what it returns in the end are the segments already emitted, then
    the runs of the sentences still to be read, the first of them
    merged with the segment being accumulated when the tags agree. *)
Lemma scan_open_runs (text : string) (sentences : list string) (st : Scan) :
  current_segment st <> "" ->
  map language_and_text
    (scan_finish text (fold_left (scan_step detect_sentence text) sentences st))
  = (map language_and_text (segments st) ++
     map run_segment
       (prepend_run (current_language st) (current_segment st)
          (merge_runs (map tagged (List.filter nonblank sentences)))))%list.
Proof.
  revert st. induction sentences as [| sentence sentences IH]; intros st Hopen.
  - cbn [fold_left List.filter map merge_runs prepend_run]. unfold scan_finish.
    apply String.eqb_neq in Hopen. rewrite Hopen. cbn [negb].
    rewrite map_app. reflexivity.
  - cbn [fold_left List.filter]. unfold scan_step at 2.
    destruct (String.eqb (strip sentence) "") eqn:Hblank; cbn [negb].
    + apply IH, Hopen.
    + cbn [map merge_runs].
      unfold py_ne.
      destruct (py_eq (fst (detect_sentence sentence)) (current_language st)) eqn:Hsame;
        cbn [negb].
      * rewrite IH by apply sentence_segment_nonempty.
        cbn [segments current_language current_segment].
        rewrite prepend_run_same by exact Hsame. reflexivity.
      * rewrite IH by apply (sentence_segment_nonempty "").
        cbn [segments current_language current_segment].
        rewrite prepend_run_other by exact Hsame.
        apply String.eqb_neq in Hopen. rewrite Hopen. cbn [negb].
        rewrite map_app, <- List.app_assoc. reflexivity.
Qed.

(** The loop, from its first state. *)
Lemma scan_init_runs (text : string) (sentences : list string) :
  map language_and_text
    (scan_finish text (fold_left (scan_step detect_sentence text) sentences scan_init))
  = map run_segment (merge_runs (map tagged (List.filter nonblank sentences))).
Proof.
  induction sentences as [| sentence sentences IH]; [reflexivity |].
  cbn [fold_left List.filter]. unfold scan_step at 2.
  destruct (String.eqb (strip sentence) "") eqn:Hblank; cbn [negb]; [exact IH |].
  cbn [map merge_runs]. unfold py_ne.
  destruct (py_eq (fst (detect_sentence sentence)) (current_language scan_init)) eqn:Hsame;
    cbn [negb].
  - apply py_eq_none in Hsame. rewrite Hsame.
    rewrite scan_open_runs by apply sentence_segment_nonempty. reflexivity.
  - rewrite scan_open_runs by apply (sentence_segment_nonempty ""). reflexivity.
Qed.

Lemma code_switches_with_runs (text : string) :
  map language_and_text (code_switches_with detect_sentence text)
  = map run_segment (merge_runs (tagged_sentences detect_sentence text)).
Proof. unfold code_switches_with, tagged_sentences. apply scan_init_runs. Qed.

End AnyDetector.

Lemma alternating_lookup (l : list pyval) (i : nat) (x y : pyval) :
  alternating l -> l !! i = Some x -> l !! S i = Some y -> x <> y.
Proof.
  revert i. induction l as [| a l IH]; intros i Halt Hx Hy; [discriminate Hx |].
  destruct l as [| b l]; [discriminate Hy |].
  destruct Halt as [Hab Hrest]. destruct i as [| i].
  - cbn in Hx, Hy. congruence.
  - exact (IH i Hrest Hx Hy).
Qed.

(** The three sentences of [three_sentences]: the two English ones are
    one segment, the Kiswahili one is the next. *)
Lemma three_sentences_two_segments :
  map language_and_text (detect_code_switches three_sentences)
  = [ (PStr "en", "Hello friend.  Please help me.");
      (PStr "sw", "Nataka kusaidia.") ].
Proof. vm_compute. reflexivity. Qed.

(** C7. For every text, no two consecutive segments that
    [detect_code_switches] returns carry the same language tag: a
    segment is closed only when the language of the next sentence
    differs from the one being accumulated, and sentences of the same
    language are appended to the open segment.  The segments are, in
    their order, the maximal runs of neighbouring sentences with the
    same tag: the languages and the texts returned are those of the
    sentences of the text that are not blank, each followed by a full
    stop and a blank, merged run by run and stripped; no sentence is
    lost and none starts a segment of the language of the one before
    it. *)
Theorem code_switch_segments_alternate (text : string) :
  alternating (map seg_language (detect_code_switches text)) /\
  (forall (i : nat) (a b : Segment),
     detect_code_switches text !! i = Some a ->
     detect_code_switches text !! S i = Some b ->
     seg_language a <> seg_language b) /\
  map language_and_text (detect_code_switches text)
  = map run_segment
      (merge_runs
         (tagged_sentences (fun sentence => detect (PStr sentence) None) text)).
Proof.
  assert (Halt : alternating (map seg_language (detect_code_switches text))).
  { unfold detect_code_switches. apply code_switches_with_alternate. }
  split; [exact Halt |]. split.
  - intros i a b Ha Hb.
    apply (alternating_lookup _ i _ _ Halt); rewrite list_lookup_fmap.
    + rewrite Ha. reflexivity.
    + rewrite Hb. reflexivity.
  - unfold detect_code_switches. apply code_switches_with_runs.
Qed.

Lemma code_switch_segments_alternate_witness :
  seg_language
    {| seg_text := "Hello, please help me.";
       seg_language := PStr "en";
       seg_start := 16;
       seg_end := 39 |}
  <> seg_language
    {| seg_text := "Nataka kusaidia.";
       seg_language := PStr "sw";
       seg_start := 21;
       seg_end := 39 |}.
Proof.
  apply (proj1 (proj2 (code_switch_segments_alternate two_languages)) 0%nat);
    vm_compute; reflexivity.
Defined.

End LanguageProps.

(** ** The matcher reads what the pattern describes *)

Module RegexProps.
Import Re Shapes StrFacts.

Lemma last_char_app (prev : option ascii) (m1 m2 : string) :
  last_char prev (m1 ++ m2) = last_char (last_char prev m1) m2.
Proof.
  revert prev. induction m1 as [| c m1 IH]; intros prev; [reflexivity |].
  rewrite app_cons. cbn [last_char]. apply IH.
Qed.

Lemma rep_sound (ic : bool) (p : ascii -> bool) (s : string) :
  forall lo hi prev (k : cont) x,
    rep ic p lo hi prev s k = Some x ->
    exists m rest,
      s = m ++ rest /\
      all_chars (cls_ok ic p) m = true /\
      (lo <= String.length m)%nat /\
      (forall h, hi = Some h -> (String.length m <= h)%nat) /\
      k (last_char prev m) rest = Some x.
Proof.
  assert (Hstop : forall lo hi prev (k : cont) s0 x,
    (if Nat.eqb lo 0 then k prev s0 else None) = Some x ->
    exists m rest,
      s0 = m ++ rest /\ all_chars (cls_ok ic p) m = true /\
      (lo <= String.length m)%nat /\
      (forall h, hi = Some h -> (String.length m <= h)%nat) /\
      k (last_char prev m) rest = Some x).
  { intros lo hi prev k s0 x H. destruct (Nat.eqb_spec lo 0) as [-> |]; [| discriminate H].
    exists "", s0. cbn. repeat split; auto; intros; lia. }
  induction s as [| c s IH]; intros lo hi prev k x H; cbn [rep] in H.
  - eapply Hstop, H.
  - destruct (cls_ok ic p c && hi_open hi) eqn:Hc; [| eapply Hstop, H].
    apply andb_true_iff in Hc as [Hc Hopen].
    destruct (rep ic p (Nat.pred lo) (hi_pred hi) (Some c) s k) as [y |] eqn:Hrec;
      [| eapply Hstop, H].
    injection H as ->.
    destruct (IH _ _ _ _ _ Hrec) as (m & rest & -> & Hall & Hlo & Hhi & Hk).
    exists (String c m), rest. cbn [all_chars String.length last_char].
    rewrite Hc, Hall. repeat split; auto; [lia |].
    intros h ->. destruct h as [| h]; [discriminate Hopen |].
    specialize (Hhi h eq_refl). lia.
Qed.

Lemma run_sound (ic : bool) (r : regex) :
  forall prev s (k : cont) x,
    run ic r prev s k = Some x ->
    exists m rest,
      s = m ++ rest /\ matches ic r prev m rest /\
      k (last_char prev m) rest = Some x.
Proof.
  induction r as [| c | p | r1 IH1 r2 IH2 | r1 IH1 r2 IH2 | p lo hi |];
    intros prev s k x H; cbn [run] in H.
  - exists "", s. repeat split; [constructor | exact H].
  - destruct s as [| y s]; [discriminate H |].
    destruct (chr_ok ic c y) eqn:Hc; [| discriminate H].
    exists (String y ""), s. repeat split; [constructor; exact Hc | exact H].
  - destruct s as [| y s]; [discriminate H |].
    destruct (cls_ok ic p y) eqn:Hc; [| discriminate H].
    exists (String y ""), s. repeat split; [constructor; exact Hc | exact H].
  - destruct (IH1 _ _ _ _ H) as (m1 & rest1 & -> & Hm1 & H2).
    destruct (IH2 _ _ _ _ H2) as (m2 & rest & -> & Hm2 & Hk).
    exists (m1 ++ m2), rest. rewrite app_assoc, last_char_app.
    repeat split; [constructor; assumption | exact Hk].
  - destruct (run ic r1 prev s k) as [y |] eqn:H1.
    + injection H as ->.
      destruct (IH1 _ _ _ _ H1) as (m & rest & -> & Hm & Hk).
      exists m, rest. repeat split; [apply matches_alt_l; exact Hm | exact Hk].
    + destruct (IH2 _ _ _ _ H) as (m & rest & -> & Hm & Hk).
      exists m, rest. repeat split; [apply matches_alt_r; exact Hm | exact Hk].
  - destruct (rep_sound ic p s _ _ _ _ _ H) as (m & rest & -> & Hall & Hlo & Hhi & Hk).
    exists m, rest. repeat split; [constructor; assumption | exact Hk].
  - destruct (xorb (word_at prev) (word_at (head s))) eqn:Hb; [| discriminate H].
    exists "", s. repeat split; [constructor; exact Hb | exact H].
Qed.

Lemma match_here_sound (ic : bool) (r : regex) (prev : option ascii) (s rest : string) :
  match_here ic r prev s = Some rest ->
  exists m, s = m ++ rest /\ matches ic r prev m rest.
Proof.
  intros H. destruct (run_sound ic r _ _ _ _ H) as (m & rest' & -> & Hm & Hk).
  injection Hk as ->. eauto.
Qed.

Lemma matched_app (m rest : string) : matched (m ++ rest) rest = m.
Proof.
  unfold matched. rewrite length_app.
  replace (String.length m + String.length rest - String.length rest)%nat
    with (String.length m) by lia.
  apply take_app.
Qed.

(** What [re.search] returns is a piece of the text that the pattern
    reads there. *)
Lemma search_from_sound (ic : bool) (r : regex) (s : string) :
  forall prev g,
    search_from ic r prev s = Some g ->
    py_in g s = true /\ exists prev' rest, matches ic r prev' g rest.
Proof.
  induction s as [| c s IH]; intros prev g H; cbn [search_from] in H.
  - destruct (match_here ic r prev "") as [rest |] eqn:Hm; [| discriminate H].
    injection H as <-. destruct (match_here_sound _ _ _ _ _ Hm) as (m & Hs & Hmatch).
    rewrite Hs, matched_app. split; [apply py_in_prefix | eauto].
  - destruct (match_here ic r prev (String c s)) as [rest |] eqn:Hm.
    + injection H as <-. destruct (match_here_sound _ _ _ _ _ Hm) as (m & Hs & Hmatch).
      rewrite Hs, matched_app. split; [apply py_in_prefix | eauto].
    + destruct (IH _ _ H) as [Hin Hmatch]. split; [apply py_in_cons; exact Hin | exact Hmatch].
Qed.

End RegexProps.

(** ** [_extract_entities]: the phone number *)

Module EntityProps.
Import Re Shapes StrFacts RegexProps IntentDetector.

Lemma chr_ok_exact (c x : ascii) : chr_ok false c x = true -> x = c.
Proof.
  unfold chr_ok. rewrite andb_false_l, orb_false_r. apply Ascii.eqb_eq.
Qed.

Lemma cls_ok_exact (p : ascii -> bool) (x : ascii) : cls_ok false p x = p x.
Proof. unfold cls_ok. rewrite andb_false_l. apply orb_false_r. Qed.

Lemma all_chars_exact (p : ascii -> bool) (s : string) :
  all_chars (cls_ok false p) s = all_chars p s.
Proof.
  induction s as [| c s IH]; [reflexivity |].
  cbn [all_chars]. rewrite cls_ok_exact, IH. reflexivity.
Qed.

Lemma subscriber_intro (x : ascii) (ds : string) :
  one_of "17" x = true -> String.length ds = 8%nat ->
  all_chars is_digit ds = true -> subscriber (String x ds) = true.
Proof.
  intros Hx Hlen Hds. unfold subscriber. rewrite Hx, Hlen, Hds. reflexivity.
Qed.

Ltac invert_matches :=
  repeat match goal with
  | H : matches _ (Cat _ _) _ _ _ |- _ => inversion H; subst; clear H
  | H : matches _ (Alt _ _) _ _ _ |- _ => inversion H; subst; clear H
  | H : matches _ (Chr _) _ _ _ |- _ => inversion H; subst; clear H
  | H : matches _ (Cls _) _ _ _ |- _ => inversion H; subst; clear H
  | H : matches _ (Rep _ _ _) _ _ _ |- _ => inversion H; subst; clear H
  | H : matches _ Eps _ _ _ |- _ => inversion H; subst; clear H
  | H : chr_ok false _ _ = true |- _ => apply chr_ok_exact in H; subst
  end.

Lemma phone_re_shape (prev : option ascii) (g rest : string) :
  matches false phone_re prev g rest -> phone_shape g = true.
Proof.
  unfold phone_re, Opt, Exactly. cbn [Lit]. intros H. invert_matches;
    match goal with
    | Hx : cls_ok false (one_of "17") ?x = true,
      Hall : all_chars (cls_ok false is_digit) ?ds = true,
      Hlo : (8 <= String.length ?ds)%nat,
      Hhi : forall h, Some 8%nat = Some h -> (String.length ?ds <= h)%nat |- _ =>
        rewrite cls_ok_exact in Hx; rewrite all_chars_exact in Hall;
        specialize (Hhi 8%nat eq_refl);
        assert (Hsub : subscriber (String x ds) = true)
          by (apply subscriber_intro; [assumption | lia | assumption])
    end.
  - unfold phone_shape. apply orb_true_iff. right. exact Hsub.
  - unfold phone_shape. apply orb_true_iff. right. exact Hsub.
  - unfold phone_shape. apply orb_true_iff. left. exact Hsub.
Qed.

Lemma lookup_store_other (key other : string) (m : option string)
    (f : string -> string) (e : gmap string pyval) :
  key <> other -> store_match key m f e !! other = e !! other.
Proof.
  intros Hne. unfold store_match. destruct m; [apply lookup_insert_ne; exact Hne | reflexivity].
Qed.

(** The phone number is stored first and no later statement writes its
    key. *)
Lemma extract_phone_number (message intent : string) :
  _extract_entities message intent !! "phone_number"
  = PStr <$> search phone_re message.
Proof.
  unfold _extract_entities.
  repeat match goal with
  | |- context [if ?b then _ else _] => destruct b
  | |- context [match search kra_pin_re message with _ => _ end] =>
      destruct (search kra_pin_re message)
  end;
  repeat first
    [ rewrite lookup_insert_ne by discriminate
    | rewrite lookup_store_other by discriminate ];
  unfold store_match; destruct (search phone_re message);
  first [ apply lookup_insert_eq | apply lookup_empty ].
Qed.

Lemma py_in_length (sub s : string) :
  py_in sub s = true -> (String.length sub <= String.length s)%nat.
Proof.
  intros (pre & post & ->)%py_in_app. rewrite !length_app. lia.
Qed.

Lemma subscriber_length (s : string) :
  subscriber s = true -> String.length s = 9%nat.
Proof.
  destruct s as [| c ds]; [discriminate |]. unfold subscriber.
  intros [[_ Hlen%Nat.eqb_eq]%andb_true_iff _]%andb_true_iff.
  cbn [String.length]. rewrite Hlen. reflexivity.
Qed.

Ltac split_char c :=
  destruct c as [[] [] [] [] [] [] [] []]; try discriminate.

Lemma spec_kenyan_mobile_length (s : string) :
  spec_kenyan_mobile s = true -> (10 <= String.length s)%nat.
Proof.
  destruct s as [| c s]; [discriminate |]. split_char c; cbn.
  - destruct s as [| c s]; [discriminate |]. split_char c.
    destruct s as [| c s]; [discriminate |]. split_char c.
    destruct s as [| c s]; [discriminate |]. split_char c.
    intros H%subscriber_length. cbn [String.length]. lia.
  - intros H%subscriber_length. lia.
Qed.

(** The text "712345678" has no piece of either shape of the
    specification, and the pattern, whose prefix group is optional,
    reads it and stores it. *)
Lemma bare_number_is_stored :
  ~ (forall message intent p,
       _extract_entities message intent !! "phone_number" = Some (PStr p) ->
       exists q, py_in q message = true /\ spec_kenyan_mobile q = true).
Proof.
  intros H.
  destruct (H "712345678" INTENT_UNKNOWN "712345678" eq_refl) as (q & Hin & Hq).
  apply py_in_length in Hin. apply spec_kenyan_mobile_length in Hq.
  cbn in Hin. lia.
Qed.

(** C5, as the code has it. [_extract_entities] stores under
    [phone_number] only a piece of the text that is nine digits, the
    first of them 1 or 7, either bare or with [0] or [+254] before
    them. *)
Theorem phone_number_shape (message intent : string) (v : pyval) :
  _extract_entities message intent !! "phone_number" = Some v ->
  exists p,
    v = PStr p /\ phone_shape p = true /\ py_in p message = true.
Proof.
  rewrite extract_phone_number. unfold search.
  destruct (search_from false phone_re None message) as [g |] eqn:Hsearch;
    cbn; [| discriminate].
  intros [= <-]. exists g.
  destruct (search_from_sound _ _ _ _ _ Hsearch) as [Hin (prev & rest & Hmatch)].
  repeat split; [exact (phone_re_shape _ _ _ Hmatch) | exact Hin].
Qed.

Lemma phone_number_shape_witness :
  exists p,
    PStr "+254712345678" = PStr p /\ phone_shape p = true /\
    py_in p "Piga +254712345678 kesho" = true.
Proof.
  apply (phone_number_shape "Piga +254712345678 kesho" INTENT_UNKNOWN
           (PStr "+254712345678")).
  reflexivity.
Defined.

End EntityProps.

(** ** Further properties of [IntentDetector] *)

Module IntentMore.
Import IntentDetector StrFacts Measures.

(** Case analysis on an intent tag against the constants it is compared
    with. *)
Ltac split_intent intent :=
  repeat match goal with
  | |- context [String.eqb intent ?c] =>
      destruct (String.eqb_spec intent c) as [-> | ?]; cbn
  end.

Lemma needs_confirmation_workflow (intent : string)
    (ents : gmap string pyval) (ctx : option (gmap string pyval)) :
  _needs_confirmation intent = true ->
  exists wf, _get_workflow intent ents ctx = Some wf /\ sms_confirmation wf = true.
Proof.
  unfold _needs_confirmation, intent_in, _get_workflow. cbn [existsb].
  split_intent intent; intros H; try discriminate H; eexists; split; reflexivity.
Qed.

Lemma conversational_no_workflow (intent : string)
    (ents : gmap string pyval) (ctx : option (gmap string pyval)) :
  _is_conversational intent = true ->
  _get_workflow intent ents ctx = None /\ _needs_confirmation intent = false.
Proof.
  unfold _is_conversational, _needs_confirmation, intent_in, _get_workflow.
  cbn [existsb].
  split_intent intent; intros H; try discriminate H; split; reflexivity.
Qed.

(** X1. In every answer of [detect], whatever the message is: an answer
    that requires confirmation carries a workflow, and that workflow
    offers the SMS confirmation; a conversational answer carries no
    workflow; and no answer is both. *)
Theorem detect_flags_agree_with_workflow
    (self_language : string) (message : pyval)
    (conversation_history : option (list (gmap string string)))
    (session_context : option (gmap string pyval)) :
  let result :=
    fst (detect self_language message conversation_history session_context) in
  (requires_confirmation result = true ->
     exists wf, workflow result = Some wf /\ sms_confirmation wf = true) /\
  (is_conversational result = true -> workflow result = None) /\
  (requires_confirmation result && is_conversational result = false).
Proof.
  destruct message as [| b | z | s]; try (cbn; repeat split; discriminate).
  unfold detect, detect_with, detect_try, detect_rest, on_str, bind, ret.
  cbn [fst snd requires_confirmation is_conversational workflow].
  set (intent := fst (_detect_primary_intent (_normalize_message s))).
  set (ents := _extract_entities s intent).
  repeat split.
  - apply needs_confirmation_workflow.
  - intros H. apply (conversational_no_workflow intent ents session_context H).
  - destruct (_is_conversational intent) eqn:Hc; [| apply andb_false_r].
    rewrite (proj2 (conversational_no_workflow intent ents session_context Hc)).
    reflexivity.
Qed.

Lemma detect_flags_agree_with_workflow_witness :
  exists wf,
    workflow (fst (detect init_language (PStr Utterances.nil_returns) None None))
      = Some wf /\ sms_confirmation wf = true.
Proof.
  apply (proj1 (detect_flags_agree_with_workflow
                  init_language (PStr Utterances.nil_returns) None None)).
  reflexivity.
Defined.

(** X2. [detect] reads neither the conversation history nor the session
    context, and what [self.language] held before the call does not
    show in the answer for a string message: the answer and the new
    [self.language] are the same for any two histories, contexts and
    earlier languages, and the new [self.language] is the language field
    of the answer. *)
Theorem detect_depends_on_message_only
    (l1 l2 : string) (s : string)
    (h1 h2 : option (list (gmap string string)))
    (c1 c2 : option (gmap string pyval)) :
  detect l1 (PStr s) h1 c1 = detect l2 (PStr s) h2 c2 /\
  language (fst (detect l1 (PStr s) h1 c1)) = snd (detect l1 (PStr s) h1 c1).
Proof.
  split; reflexivity.
Qed.

(** X3. A message that is not a string makes the first stage raise:
    [detect] answers with the error result, whose language field is the
    [self.language] of before the call, and leaves [self.language] as it
    was. *)
Theorem detect_non_string_message
    (self_language : string) (message : pyval)
    (conversation_history : option (list (gmap string string)))
    (session_context : option (gmap string pyval)) :
  (forall s, message <> PStr s) ->
  detect self_language message conversation_history session_context
  = (error_result self_language, self_language).
Proof.
  intros Hnot. destruct message as [| b | z | s]; try reflexivity.
  destruct (Hnot s eq_refl).
Qed.

Lemma detect_non_string_message_witness :
  detect "sw" (PInt 254) None None = (error_result "sw", "sw").
Proof.
  apply (detect_non_string_message "sw" (PInt 254) None None).
  intros s H. discriminate H.
Defined.

(** X4. [_detect_primary_intent] answers with one of eleven tags, never
    with [navigate] or [clarify]; its confidence lies between 0.5 and
    0.95; and the confidence is 0.5 exactly when the tag is [unknown]. *)
Theorem primary_intent_range (normalized : string) :
  In (fst (_detect_primary_intent normalized)) CLASSIFIER_INTENTS /\
  fst (_detect_primary_intent normalized) <> INTENT_NAVIGATION /\
  fst (_detect_primary_intent normalized) <> INTENT_CLARIFICATION /\
  (0.5 <= snd (_detect_primary_intent normalized) <= 0.95)%Q /\
  (fst (_detect_primary_intent normalized) = INTENT_UNKNOWN <->
   (snd (_detect_primary_intent normalized) == 0.5)%Q).
Proof.
  unfold _detect_primary_intent.
  repeat match goal with
  | |- context [if ?b then _ else _] => destruct b
  end; cbn [fst snd];
  (split; [cbn; tauto |]);
  (split; [discriminate |]);
  (split; [discriminate |]);
  (split; [split; discriminate |]);
  (split; intros H; first [discriminate H | reflexivity]).
Qed.

(** X5. The keyword [new pin] stands in the list of the recovery rule
    and in the list of the generation rule, and the recovery rule comes
    first: a text that contains it is never classified as
    [kra_pin_generation]; it is classified with confidence 0.95 as
    [kra_nil_returns] or [kra_pin_recovery]. *)
Theorem new_pin_is_recovery (normalized : string) :
  py_in "new pin" normalized = true ->
  (fst (_detect_primary_intent normalized) = INTENT_KRA_NIL_RETURNS \/
   fst (_detect_primary_intent normalized) = INTENT_KRA_PIN_RECOVERY) /\
  snd (_detect_primary_intent normalized) = 0.95%Q /\
  fst (_detect_primary_intent normalized) <> INTENT_KRA_PIN_GENERATION.
Proof.
  intros Hin.
  assert (Hrec : _matches_keywords normalized KRA_PIN_RECOVERY_KEYWORDS = true).
  { unfold _matches_keywords, any_in. apply existsb_exists.
    exists "new pin". split; [cbn; tauto | exact Hin]. }
  unfold _detect_primary_intent. rewrite Hrec.
  destruct (_matches_keywords normalized KRA_NIL_RETURNS_KEYWORDS); cbn;
    repeat split; auto; discriminate.
Qed.

Lemma new_pin_is_recovery_witness :
  (fst (_detect_primary_intent "i want a new pin") = INTENT_KRA_NIL_RETURNS \/
   fst (_detect_primary_intent "i want a new pin") = INTENT_KRA_PIN_RECOVERY) /\
  snd (_detect_primary_intent "i want a new pin") = 0.95%Q /\
  fst (_detect_primary_intent "i want a new pin") <> INTENT_KRA_PIN_GENERATION.
Proof.
  apply (new_pin_is_recovery "i want a new pin"). reflexivity.
Defined.

(** X26. [_get_suggestions] never reads the workflow and never answers
    with an empty list: four prompts for [greeting], three for every
    other intent; apart from the three KRA intents, [greeting] and
    [help], every intent gets the generic list, among them the intents
    [itax_help] and [book_appointment] that do have a workflow. *)
Theorem suggestions_by_intent (intent : string) (wf1 wf2 : option Workflow) :
  _get_suggestions intent wf1 = _get_suggestions intent wf2 /\
  List.length (_get_suggestions intent wf1)
    = (if String.eqb intent INTENT_GREETING then 4 else 3)%nat /\
  (~ In intent [ INTENT_KRA_NIL_RETURNS; INTENT_KRA_PIN_RECOVERY;
                 INTENT_KRA_PIN_GENERATION; INTENT_GREETING; INTENT_HELP ] ->
   _get_suggestions intent wf1 = FALLBACK_SUGGESTIONS).
Proof.
  split; [reflexivity |]. unfold _get_suggestions. split.
  - split_intent intent; reflexivity.
  - intros Hnot.
    repeat match goal with
    | |- context [String.eqb intent ?c] =>
        destruct (String.eqb_spec intent c) as [-> | ?];
          [exfalso; apply Hnot; cbn; tauto |]
    end.
    reflexivity.
Qed.

Lemma suggestions_by_intent_witness :
  _get_suggestions INTENT_ITAX_HELP (_get_workflow INTENT_ITAX_HELP ∅ None)
  = FALLBACK_SUGGESTIONS.
Proof.
  apply (proj2 (proj2 (suggestions_by_intent INTENT_ITAX_HELP
                         (_get_workflow INTENT_ITAX_HELP ∅ None) None))).
  cbn. intros [H | [H | [H | [H | [H | []]]]]]; discriminate H.
Defined.




Lemma lower_char_idempotent (c : ascii) : lower_char (lower_char c) = lower_char c.
Proof. destruct c as [[] [] [] [] [] [] [] []]; reflexivity. Qed.

Lemma lower_char_keeps_space (c : ascii) : is_space (lower_char c) = is_space c.
Proof. destruct c as [[] [] [] [] [] [] [] []]; reflexivity. Qed.

Lemma lower_idempotent (s : string) : lower (lower s) = lower s.
Proof.
  induction s as [| c s IH]; [reflexivity |].
  cbn [lower]. rewrite lower_char_idempotent, IH. reflexivity.
Qed.

Lemma lower_lstrip (s : string) : lower (lstrip s) = lstrip (lower s).
Proof.
  induction s as [| c s IH]; [reflexivity |].
  cbn [lstrip lower]. rewrite lower_char_keeps_space.
  destruct (is_space c); [exact IH | reflexivity].
Qed.

Lemma lower_rstrip (s : string) : lower (rstrip s) = rstrip (lower s).
Proof.
  induction s as [| c s IH]; [reflexivity |].
  cbn [rstrip lower]. rewrite <- IH, lower_char_keeps_space.
  destruct (rstrip s); cbn [lower]; [destruct (is_space c) |]; reflexivity.
Qed.

Lemma rstrip_idempotent (s : string) : rstrip (rstrip s) = rstrip s.
Proof.
  induction s as [| c s IH]; [reflexivity |].
  cbn [rstrip]. destruct (rstrip s) as [| r0 r] eqn:Hr.
  - destruct (is_space c) eqn:Hc; [reflexivity |]. cbn [rstrip]. rewrite Hc.
    reflexivity.
  - cbn [rstrip]. cbn [rstrip] in IH. rewrite IH. reflexivity.
Qed.

Lemma rstrip_head (c : ascii) (s : string) :
  is_space c = false -> exists t, rstrip (String c s) = String c t.
Proof.
  intros Hc. cbn [rstrip]. destruct (rstrip s); [rewrite Hc |]; eauto.
Qed.

Lemma lstrip_head (s : string) :
  lstrip s = "" \/ exists c t, lstrip s = String c t /\ is_space c = false.
Proof.
  induction s as [| c s IH]; [left; reflexivity |].
  cbn [lstrip]. destruct (is_space c) eqn:Hc; [exact IH |].
  right. eauto.
Qed.

Lemma strip_idempotent (s : string) : strip (strip s) = strip s.
Proof.
  unfold strip. destruct (lstrip_head s) as [-> | (c & t & -> & Hc)]; [reflexivity |].
  destruct (rstrip_head c t Hc) as [u Hu]. rewrite Hu.
  cbn [lstrip]. rewrite Hc, <- Hu. apply rstrip_idempotent.
Qed.

(** X28. [_normalize_message] is idempotent: normalizing a normalized
    message changes nothing, so classifying it again gives the same
    intent and confidence. *)
Theorem normalize_is_idempotent (message : string) :
  _normalize_message (_normalize_message message) = _normalize_message message /\
  _detect_primary_intent (_normalize_message (_normalize_message message))
  = _detect_primary_intent (_normalize_message message).
Proof.
  assert (H : _normalize_message (_normalize_message message)
              = _normalize_message message).
  { unfold _normalize_message, strip.
    rewrite lower_rstrip, lower_lstrip, lower_idempotent.
    exact (strip_idempotent (lower message)). }
  split; [exact H | rewrite H; reflexivity].
Qed.

End IntentMore.

(** ** Further properties of [_extract_entities] *)

Module EntityMore.
Import Re Shapes Measures StrFacts RegexProps IntentDetector.

Ltac invert_pattern :=
  repeat match goal with
  | H : matches _ (Cat _ _) _ _ _ |- _ => inversion H; subst; clear H
  | H : matches _ (Alt _ _) _ _ _ |- _ => inversion H; subst; clear H
  | H : matches _ (Chr _) _ _ _ |- _ => inversion H; subst; clear H
  | H : matches _ (Cls _) _ _ _ |- _ => inversion H; subst; clear H
  | H : matches _ (Rep _ _ _) _ _ _ |- _ => inversion H; subst; clear H
  | H : matches _ Eps _ _ _ |- _ => inversion H; subst; clear H
  | H : matches _ Bnd _ _ _ |- _ => inversion H; subst; clear H
  end.

Ltac through_other_keys :=
  repeat first
    [ rewrite lookup_insert_ne by discriminate
    | rewrite EntityProps.lookup_store_other by discriminate ].

Ltac open_branches message :=
  repeat match goal with
  | |- context [if ?b then _ else _] => destruct b
  | |- context [match search kra_pin_re message with _ => _ end] =>
      destruct (search kra_pin_re message)
  end.

Lemma extract_kra_pin (message intent : string) :
  _extract_entities message intent !! "kra_pin" =
  match search kra_pin_re message with
  | Some g => if (String.length g =? 10)%nat then Some (PStr g) else None
  | None => None
  end.
Proof.
  unfold _extract_entities.
  destruct (search kra_pin_re message) as [g |];
    [destruct (String.length g =? 10)%nat |];
    open_branches message; through_other_keys;
    first [ apply lookup_insert_eq | apply lookup_empty ].
Qed.

Lemma extract_national_id (message intent : string) :
  _extract_entities message intent !! "national_id" =
  (fun g => PStr (remove_blanks g)) <$> search id_re message.
Proof.
  unfold _extract_entities. open_branches message; through_other_keys;
    unfold store_match at 1; destruct (search id_re message);
    first [ apply lookup_insert_eq | through_other_keys; apply lookup_empty ].
Qed.

Lemma extract_email (message intent : string) :
  _extract_entities message intent !! "email" = PStr <$> search email_re message.
Proof.
  unfold _extract_entities. open_branches message; through_other_keys;
    unfold store_match at 1; destruct (search email_re message);
    first [ apply lookup_insert_eq | through_other_keys; apply lookup_empty ].
Qed.

Lemma all_chars_plain (p : ascii -> bool) (s : string) :
  all_chars (cls_ok false p) s = all_chars p s.
Proof.
  induction s as [| c s IH]; [reflexivity |].
  cbn [all_chars]. unfold cls_ok at 1. rewrite andb_false_l, orb_false_r, IH.
  reflexivity.
Qed.

Lemma exact_length (ds : string) (n : nat) :
  (n <= String.length ds)%nat ->
  (forall h, Some n = Some h -> (String.length ds <= h)%nat) ->
  String.length ds = n.
Proof. intros Hlo Hhi. specialize (Hhi n eq_refl). lia. Qed.

Lemma kra_pin_re_shape (prev : option ascii) (g rest : string) :
  matches false kra_pin_re prev g rest ->
  String.length g = 10%nat /\ all_chars is_digit g = true.
Proof.
  unfold kra_pin_re, Exactly. intros H. invert_pattern.
  rewrite app_empty_r. change ("" ++ ?x) with x.
  match goal with
  | Hall : all_chars _ ?m = true |- _ => rewrite all_chars_plain in Hall
  end.
  split; [apply exact_length; assumption | assumption].
Qed.

(** X6. What [_extract_entities] stores under [kra_pin] is a piece of
    the message made of exactly ten digits. *)
Theorem kra_pin_is_ten_digits (message intent : string) (v : pyval) :
  _extract_entities message intent !! "kra_pin" = Some v ->
  exists p,
    v = PStr p /\ String.length p = 10%nat /\ all_chars is_digit p = true /\
    py_in p message = true.
Proof.
  rewrite extract_kra_pin. unfold search.
  destruct (search_from false kra_pin_re None message) as [g |] eqn:Hsearch;
    [| discriminate].
  destruct (String.length g =? 10)%nat; [| discriminate].
  intros [= <-]. exists g.
  destruct (search_from_sound _ _ _ _ _ Hsearch) as [Hin (prev & rest & Hmatch)].
  destruct (kra_pin_re_shape _ _ _ Hmatch) as [Hlen Hdigits].
  repeat split; assumption.
Qed.

Lemma kra_pin_is_ten_digits_witness :
  exists p,
    PStr "1234567890" = PStr p /\ String.length p = 10%nat /\
    all_chars is_digit p = true /\
    py_in p Utterances.nil_returns = true.
Proof.
  apply (kra_pin_is_ten_digits Utterances.nil_returns INTENT_KRA_NIL_RETURNS
           (PStr "1234567890")).
  reflexivity.
Defined.

Lemma remove_blanks_app (a b : string) :
  remove_blanks (a ++ b) = remove_blanks a ++ remove_blanks b.
Proof.
  induction a as [| c a IH]; [reflexivity |].
  rewrite app_cons. cbn [remove_blanks]. rewrite IH.
  destruct (Ascii.eqb c " "); reflexivity.
Qed.

Lemma count_chars_app (p : ascii -> bool) (a b : string) :
  count_chars p (a ++ b) = (count_chars p a + count_chars p b)%nat.
Proof.
  induction a as [| c a IH]; [reflexivity |].
  rewrite app_cons. cbn [count_chars]. rewrite IH. lia.
Qed.

Lemma all_chars_app (p : ascii -> bool) (a b : string) :
  all_chars p (a ++ b) = all_chars p a && all_chars p b.
Proof.
  induction a as [| c a IH]; [reflexivity |].
  rewrite app_cons. cbn [all_chars]. rewrite IH. apply andb_assoc.
Qed.

Lemma digit_not_blank (c : ascii) :
  is_digit c = true -> Ascii.eqb c " " = false /\ digit_or_gap c = true.
Proof.
  destruct c as [[] [] [] [] [] [] [] []]; vm_compute; intros H;
    first [discriminate H | split; reflexivity].
Qed.

Lemma space_not_digit (c : ascii) :
  is_space c = true -> is_digit c = false.
Proof.
  destruct c as [[] [] [] [] [] [] [] []]; vm_compute; intros H;
    first [discriminate H | reflexivity].
Qed.

Lemma digits_kept (a : string) :
  all_chars is_digit a = true ->
  remove_blanks a = a /\ count_chars is_digit a = String.length a /\
  all_chars digit_or_gap a = true.
Proof.
  induction a as [| c a IH]; [repeat split |].
  cbn [all_chars remove_blanks count_chars String.length].
  intros [Hc Ha]%andb_true_iff.
  destruct (IH Ha) as (Hr & Hn & Hg). destruct (digit_not_blank c Hc) as [Hb Hd].
  rewrite Hb, Hc, Hd, Hr, Hn, Hg. repeat split.
Qed.

Lemma gaps_kept (w : string) :
  all_chars is_space w = true ->
  count_chars is_digit (remove_blanks w) = 0%nat /\
  all_chars digit_or_gap (remove_blanks w) = true.
Proof.
  induction w as [| c w IH]; [repeat split |].
  cbn [all_chars remove_blanks].
  intros [Hc Hw]%andb_true_iff. destruct (IH Hw) as [Hn Hg].
  destruct (Ascii.eqb c " ") eqn:Hb; [split; assumption |].
  cbn [count_chars all_chars]. unfold digit_or_gap at 1.
  rewrite (space_not_digit c Hc), Hc, Hb, Hn, Hg. repeat split.
Qed.

Ltac plain_classes :=
  repeat match goal with
  | H : all_chars (cls_ok false _) _ = true |- _ => rewrite all_chars_plain in H
  end.

Lemma id_re_shape (prev : option ascii) (g rest : string) :
  matches false id_re prev g rest ->
  count_chars is_digit (remove_blanks g) = 8%nat /\
  all_chars digit_or_gap (remove_blanks g) = true.
Proof.
  unfold id_re, d2, Star, Exactly. intros H. invert_pattern; plain_classes.
  - rewrite app_empty_r. change ("" ++ ?x) with x.
    match goal with
    | Hall : all_chars is_digit ?m = true |- _ =>
        destruct (digits_kept m Hall) as (-> & -> & ->)
    end.
    split; [apply exact_length; assumption | reflexivity].
  - rewrite !remove_blanks_app, !count_chars_app, !all_chars_app.
    repeat match goal with
    | Hall : all_chars is_digit ?m = true,
      Hlo : (2 <= String.length ?m)%nat,
      Hhi : forall h, Some 2%nat = Some h -> (String.length ?m <= h)%nat |- _ =>
        destruct (digits_kept m Hall) as (-> & -> & ->);
        rewrite (exact_length m 2 Hlo Hhi); clear Hall Hlo Hhi
    | Hall : all_chars is_space ?w = true |- _ =>
        destruct (gaps_kept w Hall) as (-> & ->); clear Hall
    end.
    split; reflexivity.
Qed.

(** X7. What [_extract_entities] stores under [national_id] holds
    exactly eight digits and no blank; every other character of it is a
    whitespace character that is not the blank (a tab or a line break
    between the groups of digits is kept: only blanks are removed). *)
Theorem national_id_has_eight_digits (message intent : string) (v : pyval) :
  _extract_entities message intent !! "national_id" = Some v ->
  exists p,
    v = PStr p /\ count_chars is_digit p = 8%nat /\
    all_chars digit_or_gap p = true /\ py_in " " p = false.
Proof.
  rewrite extract_national_id. unfold search.
  destruct (search_from false id_re None message) as [g |] eqn:Hsearch;
    cbn; [| discriminate].
  intros [= <-]. exists (remove_blanks g).
  destruct (search_from_sound _ _ _ _ _ Hsearch) as [_ (prev & rest & Hmatch)].
  destruct (id_re_shape _ _ _ Hmatch) as [Hcount Hall].
  repeat split; try assumption.
  clear. induction g as [| c g IH]; [reflexivity |].
  cbn [remove_blanks]. destruct (Ascii.eqb_spec c " ") as [-> | Hne]; [exact IH |].
  cbn [py_in starts_with]. rewrite IH, orb_false_r.
  destruct (Ascii.eqb_spec " " c) as [<- | _]; [destruct (Hne eq_refl) | reflexivity].
Qed.

Lemma national_id_has_eight_digits_witness :
  exists p,
    PStr "12345678" = PStr p /\ count_chars is_digit p = 8%nat /\
    all_chars digit_or_gap p = true /\ py_in " " p = false.
Proof.
  apply (national_id_has_eight_digits "ID yangu ni 12 34 56 78" INTENT_UNKNOWN
           (PStr "12345678")).
  reflexivity.
Defined.

Lemma nonempty_of_length (s : string) : (1 <= String.length s)%nat -> s <> "".
Proof. destruct s; cbn; [lia | discriminate]. Qed.

Lemma email_re_shape (prev : option ascii) (g rest : string) :
  matches false email_re prev g rest ->
  exists local domain tld,
    g = local ++ "@" ++ domain ++ "." ++ tld /\
    local <> "" /\ domain <> "" /\ tld <> "" /\
    all_chars word_dot_dash local = true /\
    all_chars word_dot_dash domain = true /\
    all_chars is_word tld = true.
Proof.
  unfold email_re, Plus. intros H. invert_pattern; plain_classes.
  repeat match goal with
  | H : chr_ok false _ _ = true |- _ => apply EntityProps.chr_ok_exact in H; subst
  end.
  match goal with
  | |- exists l d t, ?a ++ _ ++ ?b ++ _ ++ ?c = _ /\ _ => exists a, b, c
  end.
  repeat split; auto using nonempty_of_length.
Qed.

(** X8. What [_extract_entities] stores under [email] is a piece of the
    message of the form local@domain.tld: three parts that are not
    empty, the first two made of word characters, dots and dashes, the
    last one of word characters. *)
Theorem email_has_three_parts (message intent : string) (v : pyval) :
  _extract_entities message intent !! "email" = Some v ->
  exists local domain tld,
    v = PStr (local ++ "@" ++ domain ++ "." ++ tld) /\
    local <> "" /\ domain <> "" /\ tld <> "" /\
    all_chars word_dot_dash local = true /\
    all_chars word_dot_dash domain = true /\
    all_chars is_word tld = true /\
    py_in (local ++ "@" ++ domain ++ "." ++ tld) message = true.
Proof.
  rewrite extract_email. unfold search.
  destruct (search_from false email_re None message) as [g |] eqn:Hsearch;
    cbn; [| discriminate].
  intros [= <-].
  destruct (search_from_sound _ _ _ _ _ Hsearch) as [Hin (prev & rest & Hmatch)].
  destruct (email_re_shape _ _ _ Hmatch)
    as (local & domain & tld & -> & H1 & H2 & H3 & H4 & H5 & H6).
  exists local, domain, tld. repeat split; assumption.
Qed.

Lemma email_has_three_parts_witness :
  exists local domain tld,
    PStr "wanjiku@example.co.ke" = PStr (local ++ "@" ++ domain ++ "." ++ tld) /\
    local <> "" /\ domain <> "" /\ tld <> "" /\
    all_chars word_dot_dash local = true /\
    all_chars word_dot_dash domain = true /\
    all_chars is_word tld = true /\
    py_in (local ++ "@" ++ domain ++ "." ++ tld)
      "Tuma kwa wanjiku@example.co.ke leo" = true.
Proof.
  apply (email_has_three_parts "Tuma kwa wanjiku@example.co.ke leo" INTENT_UNKNOWN
           (PStr "wanjiku@example.co.ke")).
  reflexivity.
Defined.

(** The searches find a match whenever there is one somewhere. *)
Lemma search_from_complete (ic : bool) (r : regex) (pre : string) :
  forall prev t,
    match_here ic r (last_char prev pre) t <> None ->
    search_from ic r prev (pre ++ t) <> None.
Proof.
  induction pre as [| c pre IH]; intros prev t Hm.
  - change ("" ++ t) with t. cbn [last_char] in Hm.
    destruct t as [| x t]; cbn [search_from];
      destruct (match_here ic r prev _); congruence.
  - rewrite app_cons. cbn [search_from].
    destruct (match_here ic r prev (String c (pre ++ t))); [discriminate |].
    apply IH. exact Hm.
Qed.

Lemma rep_exact (p : ascii -> bool) (ds : string) :
  forall prev post (k : cont),
    all_chars p ds = true ->
    rep false p (String.length ds) (Some (String.length ds)) prev (ds ++ post) k
    = k (last_char prev ds) post.
Proof.
  induction ds as [| c ds IH]; intros prev post k Hall.
  - change ("" ++ post) with post. cbn [String.length last_char].
    destruct post as [| x post]; cbn [rep]; [reflexivity |].
    cbn [hi_open]. rewrite andb_false_r. reflexivity.
  - cbn [all_chars] in Hall. apply andb_true_iff in Hall as [Hc Hall].
    rewrite app_cons. cbn [rep String.length hi_open hi_pred Nat.pred last_char].
    unfold cls_ok at 1. rewrite Hc. cbn [orb andb].
    rewrite (IH (Some c) post k Hall).
    destruct (k (last_char (Some c) ds) post); reflexivity.
Qed.

Lemma phone_re_reads_subscriber (prev : option ascii) (c : ascii) (ds post : string) :
  one_of "17" c = true -> String.length ds = 8%nat ->
  all_chars is_digit ds = true ->
  match_here false phone_re prev (String c (ds ++ post)) <> None.
Proof.
  intros Hc Hlen Hds. unfold match_here, phone_re, Opt, Exactly.
  cbn [run Lit].
  match goal with
  | |- match match ?first with _ => _ end with _ => _ end <> None =>
      destruct first; [discriminate |]
  end.
  match goal with
  | |- match ?second with _ => _ end <> None =>
      destruct second; [discriminate |]
  end.
  unfold cls_ok at 1. rewrite Hc. cbn [orb].
  rewrite <- Hlen. rewrite (rep_exact is_digit ds _ post _ Hds). discriminate.
Qed.

(** X9. Whenever the message holds, anywhere, a digit 1 or 7 followed
    by eight more digits, [_extract_entities] stores a phone number;
    the digits may stand inside a longer run of digits, such as a KRA
    PIN. *)
Theorem phone_number_found (pre post ds intent : string) (c : ascii) :
  one_of "17" c = true -> String.length ds = 8%nat ->
  all_chars is_digit ds = true ->
  exists p,
    _extract_entities (pre ++ String c (ds ++ post)) intent !! "phone_number"
    = Some (PStr p).
Proof.
  intros Hc Hlen Hds. rewrite EntityProps.extract_phone_number. unfold search.
  destruct (search_from false phone_re None (pre ++ String c (ds ++ post)))
    as [g |] eqn:Hsearch.
  - exists g. reflexivity.
  - exfalso. revert Hsearch. apply search_from_complete.
    apply phone_re_reads_subscriber; assumption.
Qed.

Lemma phone_number_found_witness :
  exists p,
    _extract_entities ("PIN A00" ++ String "1" ("23456789" ++ "0Z")) INTENT_UNKNOWN
      !! "phone_number" = Some (PStr p).
Proof.
  apply (phone_number_found "PIN A00" "0Z" "23456789" INTENT_UNKNOWN "1");
    reflexivity.
Defined.

Ltac by_intent intent :=
  repeat match goal with
  | |- context [String.eqb intent ?c] =>
      destruct (String.eqb_spec intent c) as [-> | ?]
  end.

(** X10. The keys that belong to one intent are written for that intent
    only: [date] and [time_slot] appear for [book_appointment] alone,
    and [service_type], [requires_pin] and [requires_identification] for
    none but the three KRA intents. *)
Theorem intent_keys_only_for_their_intent (message intent : string) :
  (intent <> INTENT_BOOKING ->
     _extract_entities message intent !! "date" = None /\
     _extract_entities message intent !! "time_slot" = None) /\
  (intent <> INTENT_KRA_NIL_RETURNS ->
   intent <> INTENT_KRA_PIN_RECOVERY ->
   intent <> INTENT_KRA_PIN_GENERATION ->
     _extract_entities message intent !! "service_type" = None /\
     _extract_entities message intent !! "requires_pin" = None /\
     _extract_entities message intent !! "requires_identification" = None).
Proof.
  split.
  - intros Hnot. unfold _extract_entities. by_intent intent;
      try (destruct (Hnot eq_refl));
      split; open_branches message; through_other_keys; apply lookup_empty.
  - intros H1 H2 H3. unfold _extract_entities. by_intent intent;
      try (destruct (H1 eq_refl)); try (destruct (H2 eq_refl));
      try (destruct (H3 eq_refl));
      repeat split; open_branches message; through_other_keys; apply lookup_empty.
Qed.

Lemma intent_keys_only_for_their_intent_witness :
  (_extract_entities "Kesho 12/03/2025 asubuhi, morning" INTENT_HELP !! "date" = None /\
   _extract_entities "Kesho 12/03/2025 asubuhi, morning" INTENT_HELP !! "time_slot" = None) /\
  (_extract_entities "file nil returns" INTENT_GREETING !! "service_type" = None /\
   _extract_entities "file nil returns" INTENT_GREETING !! "requires_pin" = None /\
   _extract_entities "file nil returns" INTENT_GREETING !! "requires_identification" = None).
Proof.
  split.
  - apply (proj1 (intent_keys_only_for_their_intent
                    "Kesho 12/03/2025 asubuhi, morning" INTENT_HELP)).
    discriminate.
  - apply (proj2 (intent_keys_only_for_their_intent
                    "file nil returns" INTENT_GREETING)); discriminate.
Defined.

(** X11. For the three KRA intents the flag says whether the identifier
    is still missing: under [kra_nil_returns], [requires_pin] is true
    exactly when no [kra_pin] was stored; under [kra_pin_recovery] and
    [kra_pin_generation], [requires_identification] is true exactly when
    no [national_id] was stored. *)
Theorem requires_flags_mirror_missing_keys (message : string) :
  (let e := _extract_entities message INTENT_KRA_NIL_RETURNS in
   e !! "service_type" = Some (PStr "nil_returns") /\
   e !! "requires_pin" = Some (PBool (bool_decide (e !! "kra_pin" = None)))) /\
  (let e := _extract_entities message INTENT_KRA_PIN_RECOVERY in
   e !! "service_type" = Some (PStr "pin_recovery") /\
   e !! "requires_identification"
     = Some (PBool (bool_decide (e !! "national_id" = None)))) /\
  (let e := _extract_entities message INTENT_KRA_PIN_GENERATION in
   e !! "service_type" = Some (PStr "pin_generation") /\
   e !! "requires_identification"
     = Some (PBool (bool_decide (e !! "national_id" = None)))).
Proof.
  cbv zeta. unfold _extract_entities.
  change (String.eqb INTENT_KRA_NIL_RETURNS INTENT_KRA_NIL_RETURNS) with true.
  change (String.eqb INTENT_KRA_PIN_RECOVERY INTENT_KRA_NIL_RETURNS) with false.
  change (String.eqb INTENT_KRA_PIN_RECOVERY INTENT_KRA_PIN_RECOVERY) with true.
  change (String.eqb INTENT_KRA_PIN_GENERATION INTENT_KRA_NIL_RETURNS) with false.
  change (String.eqb INTENT_KRA_PIN_GENERATION INTENT_KRA_PIN_RECOVERY) with false.
  change (String.eqb INTENT_KRA_PIN_GENERATION INTENT_KRA_PIN_GENERATION) with true.
  cbv iota. unfold not_in.
  repeat split;
    first [ rewrite lookup_insert_eq; f_equal; f_equal;
            rewrite (lookup_insert_ne _ "requires_pin") by discriminate; reflexivity
          | rewrite lookup_insert_eq; f_equal; f_equal;
            rewrite (lookup_insert_ne _ "requires_identification") by discriminate;
            reflexivity
          | rewrite lookup_insert_ne by discriminate; apply lookup_insert_eq ].
Qed.

(** X12. Under [book_appointment] the time slot is decided on the
    lower-cased message by containment alone: [morning] as soon as
    "morning" or "am" occurs anywhere in it (also inside a word, and
    also when "afternoon" occurs too), otherwise [afternoon] when
    "afternoon" or "pm" occurs, otherwise no time slot. *)
Theorem time_slot_by_containment (message : string) :
  _extract_entities message INTENT_BOOKING !! "time_slot" =
  if py_in "morning" (lower message) || py_in "am" (lower message)
  then Some (PStr "morning")
  else if py_in "afternoon" (lower message) || py_in "pm" (lower message)
  then Some (PStr "afternoon")
  else None.
Proof.
  unfold _extract_entities.
  change (String.eqb INTENT_BOOKING INTENT_KRA_NIL_RETURNS) with false.
  change (String.eqb INTENT_BOOKING INTENT_KRA_PIN_RECOVERY) with false.
  change (String.eqb INTENT_BOOKING INTENT_KRA_PIN_GENERATION) with false.
  change (String.eqb INTENT_BOOKING INTENT_BOOKING) with true.
  cbv iota.
  destruct (py_in "morning" (lower message) || py_in "am" (lower message));
    [apply lookup_insert_eq |].
  destruct (py_in "afternoon" (lower message) || py_in "pm" (lower message));
    [apply lookup_insert_eq |].
  open_branches message; through_other_keys; apply lookup_empty.
Qed.

End EntityMore.

(** ** Further properties of [LanguageDetector] *)

Module LanguageMore.
Import LanguageDetector StrFacts Shapes Measures Utterances.

Lemma Qlt_bool_iff (a b : Q) : Qlt_bool a b = true <-> (a < b)%Q.
Proof.
  unfold Qlt_bool. rewrite negb_true_iff. split.
  - intros H. apply Qnot_le_lt. intros Hle.
    apply Qle_bool_iff in Hle. congruence.
  - intros H. destruct (Qle_bool b a) eqn:Hle; [| reflexivity].
    apply Qle_bool_iff in Hle. apply Qlt_not_le in H. contradiction.
Qed.

Lemma Qlt_bool_false (a b : Q) : Qlt_bool a b = false -> (b <= a)%Q.
Proof.
  unfold Qlt_bool. rewrite negb_false_iff. apply Qle_bool_iff.
Qed.

Lemma qmin_cases (a b : Q) :
  (qmin a b = b /\ (b < a)%Q) \/ (qmin a b = a /\ (a <= b)%Q).
Proof.
  unfold qmin. destruct (Qlt_bool b a) eqn:H.
  - left. split; [reflexivity | apply Qlt_bool_iff, H].
  - right. split; [reflexivity | apply Qlt_bool_false, H].
Qed.

Lemma ratio_nonneg (n d : nat) : (0 <= ratio n d)%Q.
Proof.
  unfold ratio, Qdiv. apply Qmult_le_0_compat.
  - change 0%Q with (inject_Z 0). rewrite <- Zle_Qle. lia.
  - apply Qinv_le_0_compat. change 0%Q with (inject_Z 0). rewrite <- Zle_Qle. lia.
Qed.

Lemma value_nonneg (m : positive) (e : Z) :
  (0 <= value (SpecFloat.S754_finite false m e))%Q.
Proof.
  unfold value. destruct e; unfold Qle; cbn; lia.
Qed.

Lemma round_aux_nonneg (mx ex : Z) (lx : SpecFloat.location) :
  (0 <= value (SpecFloat.binary_round_aux prec emax false mx ex lx))%Q.
Proof.
  unfold SpecFloat.binary_round_aux.
  destruct (SpecFloat.shr_fexp prec emax mx ex lx) as [mrs e'].
  destruct (SpecFloat.shr_fexp prec emax _ e' SpecFloat.loc_Exact) as [mrs' e''].
  destruct (SpecFloat.shr_m mrs'); [cbn; lra | | cbn; lra].
  destruct (Z.leb e'' (Z.sub emax prec)); [apply value_nonneg | cbn; lra].
Qed.

(** Rounding keeps what is not negative not negative. *)
Lemma rnd_nonneg (q : Q) : (0 <= q)%Q -> (0 <= rnd q)%Q.
Proof.
  intros Hq. unfold rnd. destruct q as [n d]. cbn [Qnum Qden].
  destruct n as [| n | n]; [lra | | unfold Qle in Hq; cbn in Hq; lia].
  unfold whole. cbn [SpecFloat.SFdiv xorb].
  destruct (SpecFloat.SFdiv_core_binary prec emax (Zpos n) 0 (Zpos d) 0)
    as [[mz ez] lz].
  apply round_aux_nonneg.
Qed.

Lemma fadd_nonneg (a b : Q) : (0 <= a)%Q -> (0 <= b)%Q -> (0 <= fadd a b)%Q.
Proof. intros Ha Hb. apply rnd_nonneg. lra. Qed.

Lemma fmul_nonneg (a b : Q) : (0 <= a)%Q -> (0 <= b)%Q -> (0 <= fmul a b)%Q.
Proof. intros Ha Hb. apply rnd_nonneg. apply Qmult_le_0_compat; assumption. Qed.

Lemma fdiv_nonneg (a b : Q) : (0 <= a)%Q -> (0 <= b)%Q -> (0 <= fdiv a b)%Q.
Proof.
  intros Ha Hb. apply rnd_nonneg. unfold Qdiv.
  apply Qmult_le_0_compat; [exact Ha | apply Qinv_le_0_compat, Hb].
Qed.

Lemma lit_nonneg (q : Q) : (0 <= q)%Q -> (0 <= lit q)%Q.
Proof. apply rnd_nonneg. Qed.

Lemma true_div_nonneg (n d : nat) : (0 <= true_div n d)%Q.
Proof. apply rnd_nonneg, ratio_nonneg. Qed.

Lemma of_int_nonneg (n : nat) : (0 <= of_int n)%Q.
Proof.
  apply rnd_nonneg. change 0%Q with (inject_Z 0). rewrite <- Zle_Qle. lia.
Qed.

Lemma qmin_nonneg (a b : Q) : (0 <= a)%Q -> (0 <= b)%Q -> (0 <= qmin a b)%Q.
Proof.
  intros Ha Hb. destruct (qmin_cases a b) as [[-> _] | [-> _]]; assumption.
Qed.

Lemma qmin_at_most (a b : Q) : (qmin a b <= b)%Q.
Proof.
  destruct (qmin_cases a b) as [[-> _] | [-> H]]; [lra | exact H].
Qed.

Ltac nonneg :=
  repeat match goal with
  | |- (0 <= true_div _ _)%Q => apply true_div_nonneg
  | |- (0 <= of_int _)%Q => apply of_int_nonneg
  | |- (0 <= lit _)%Q => apply lit_nonneg
  | |- (0 <= qmin _ _)%Q => apply qmin_nonneg
  | |- (0 <= fadd _ _)%Q => apply fadd_nonneg
  | |- (0 <= fmul _ _)%Q => apply fmul_nonneg
  | |- (0 <= fdiv _ _)%Q => apply fdiv_nonneg
  | |- (0 <= if ?b then _ else _)%Q => destruct b
  | |- (0 <= _)%Q => lra
  end.

Lemma score_kiswahili_bounds (text : string) :
  (0 <= _score_kiswahili text <= 1)%Q.
Proof.
  unfold _score_kiswahili. cbv zeta. split.
  - nonneg.
  - match goal with
    | |- (qmin ?a ?b <= _)%Q => pose proof (qmin_at_most a b); lra
    end.
Qed.

Lemma score_english_bounds (text : string) :
  (0 <= _score_english text <= 1)%Q.
Proof.
  unfold _score_english. cbv zeta. split.
  - nonneg.
  - match goal with
    | |- (qmin ?a ?b <= _)%Q => pose proof (qmin_at_most a b); lra
    end.
Qed.

(** X13. Both scores of a text lie between 0 and 1. *)
Theorem scores_between_0_and_1 (text : string) :
  (0 <= _score_kiswahili text <= 1)%Q /\ (0 <= _score_english text <= 1)%Q.
Proof.
  split; [apply score_kiswahili_bounds | apply score_english_bounds].
Qed.

Lemma share_bounds (x total : Q) :
  (0 <= x)%Q -> (0 <= total)%Q ->
  (0 <= qmin (if Qlt_bool 0 total then fdiv x total else 0.6) 1.0 <= 1)%Q.
Proof.
  intros Hx Ht. split.
  - nonneg.
  - match goal with
    | |- (qmin ?a ?b <= _)%Q => pose proof (qmin_at_most a b); lra
    end.
Qed.

(** X14. Without a pinned language, whatever the text is (a string or
    not), [detect] answers with the tag [en] or the tag [sw] and with a
    confidence between 0 and 1. *)
Theorem detect_tag_and_confidence_range
    (text : pyval) (session_context : option (gmap string pyval)) :
  pinned session_context = false ->
  (fst (detect text session_context) = PStr "en" \/
   fst (detect text session_context) = PStr "sw") /\
  (0 <= snd (detect text session_context) <= 1)%Q.
Proof.
  intros Hpin. unfold detect, detect_body. rewrite Hpin.
  destruct text as [| b | z | s]; try (cbn; split; [left; reflexivity | lra]).
  unfold on_lower, bind, ret.
  pose proof (score_kiswahili_bounds (strip (lower s))) as Hsw.
  pose proof (score_english_bounds (strip (lower s))) as Hen.
  destruct (Qlt_bool (fadd (_score_english (strip (lower s))) (lit 0.2))
              (_score_kiswahili (strip (lower s)))); cbn [fst snd].
  - split; [right; reflexivity |]. apply share_bounds; [lra | nonneg].
  - split; [left; reflexivity |]. apply share_bounds; [lra | nonneg].
Qed.

Lemma detect_tag_and_confidence_range_witness :
  (fst (detect (PStr nataka) (Some ∅)) = PStr "en" \/
   fst (detect (PStr nataka) (Some ∅)) = PStr "sw") /\
  (0 <= snd (detect (PStr nataka) (Some ∅)) <= 1)%Q.
Proof.
  apply (detect_tag_and_confidence_range (PStr nataka) (Some ∅)). reflexivity.
Defined.

(** X16. A text that is not a string has no [lower]: without a pinned
    language the exception is caught and [detect] answers [en] with
    confidence 0.5. *)
Theorem detect_non_string_text
    (text : pyval) (session_context : option (gmap string pyval)) :
  pinned session_context = false ->
  (forall s, text <> PStr s) ->
  detect text session_context = (PStr "en", 0.5%Q).
Proof.
  intros Hpin Hnot. unfold detect, detect_body. rewrite Hpin.
  destruct text as [| b | z | s]; try reflexivity.
  destruct (Hnot s eq_refl).
Qed.

Lemma detect_non_string_text_witness :
  detect PNone (Some {["last_intent" := PStr "help"]}) = (PStr "en", 0.5%Q).
Proof.
  apply (detect_non_string_text PNone (Some {["last_intent" := PStr "help"]})).
  - reflexivity.
  - intros s H. discriminate H.
Defined.

(** X17. Pinning one of the two tags and then detecting: after
    [set_session_language] with [en] or [sw] on a session context, the
    attribute [session_language] holds the tag, the other keys of the
    context are as they were, and [detect] on that context answers the
    tag with confidence 1.0 for any text, whatever was pinned before. *)
Theorem set_then_detect
    (session_language language text : pyval) (context : gmap string pyval) :
  language = PStr "en" \/ language = PStr "sw" ->
  exists context',
    set_session_language session_language language (Some context)
    = (language, Some context') /\
    context' !! "preferred_language" = Some language /\
    (forall key, key <> "preferred_language" -> context' !! key = context !! key) /\
    detect text (Some context') = (language, 1.0%Q).
Proof.
  intros Htag. exists (<["preferred_language" := language]> context).
  assert (Hin : existsb (py_eq language) [PStr "en"; PStr "sw"] = true).
  { destruct Htag as [-> | ->]; reflexivity. }
  assert (Htruthy : truthy language = true).
  { destruct Htag as [-> | ->]; reflexivity. }
  unfold set_session_language. rewrite Hin.
  repeat split.
  - apply lookup_insert_eq.
  - intros key Hkey. apply lookup_insert_ne. congruence.
  - unfold detect, detect_body, pinned, preferred_language.
    rewrite lookup_insert_eq. cbn [from_option id]. rewrite Htruthy.
    rewrite bool_decide_eq_false_2; [reflexivity |].
    intros Hempty. apply (f_equal (fun m => m !! "preferred_language")) in Hempty.
    rewrite lookup_insert_eq, lookup_empty in Hempty. discriminate Hempty.
Qed.

Lemma set_then_detect_witness :
  exists context',
    set_session_language PNone (PStr "sw")
      (Some {["preferred_language" := PStr "en"; "last_intent" := PStr "help"]})
    = (PStr "sw", Some context') /\
    context' !! "preferred_language" = Some (PStr "sw") /\
    (forall key, key <> "preferred_language" ->
       context' !! key
       = ({["preferred_language" := PStr "en"; "last_intent" := PStr "help"]}
            : gmap string pyval) !! key) /\
    detect (PStr "Good morning") (Some context') = (PStr "sw", 1.0%Q).
Proof.
  apply (set_then_detect PNone (PStr "sw") (PStr "Good morning")
           {["preferred_language" := PStr "en"; "last_intent" := PStr "help"]}).
  right. reflexivity.
Defined.

(** X18. [set_session_language] accepts the two tags only: for any other
    value the attribute and the context stay as they were, and with no
    context given only the attribute is set. *)
Theorem set_session_language_rejects_other_tags
    (session_language language : pyval) (context : option (gmap string pyval)) :
  (language <> PStr "en" -> language <> PStr "sw" ->
     set_session_language session_language language context
     = (session_language, context)) /\
  (language = PStr "en" \/ language = PStr "sw" ->
     set_session_language session_language language None = (language, None)).
Proof.
  unfold set_session_language. split.
  - intros Hen Hsw.
    assert (Hout : existsb (py_eq language) [PStr "en"; PStr "sw"] = false).
    { destruct language as [| b | z | s]; try reflexivity.
      cbn [existsb py_eq]. rewrite orb_false_r. apply orb_false_iff. split.
      - apply String.eqb_neq. congruence.
      - apply String.eqb_neq. congruence. }
    rewrite Hout. reflexivity.
  - intros [-> | ->]; reflexivity.
Qed.

Lemma set_session_language_rejects_other_tags_witness :
  set_session_language (PStr "en") (PStr "fr") (Some {["last_intent" := PStr "help"]})
  = (PStr "en", Some {["last_intent" := PStr "help"]}) /\
  set_session_language PNone (PStr "sw") None = (PStr "sw", None).
Proof.
  split.
  - apply (proj1 (set_session_language_rejects_other_tags
                    (PStr "en") (PStr "fr") (Some {["last_intent" := PStr "help"]})));
      discriminate.
  - apply (proj2 (set_session_language_rejects_other_tags PNone (PStr "sw") None)).
    right. reflexivity.
Defined.

Lemma translations_of (intent : string) :
  intent_translations !! intent =
  if String.eqb intent "kra_nil_returns" then
    intent_translations !! "kra_nil_returns"
  else if String.eqb intent "kra_pin_recovery" then
    intent_translations !! "kra_pin_recovery"
  else if String.eqb intent "kra_pin_generation" then
    intent_translations !! "kra_pin_generation"
  else if String.eqb intent "itax_help" then
    intent_translations !! "itax_help"
  else None.
Proof.
  repeat match goal with
  | |- context [String.eqb intent ?c] =>
      destruct (String.eqb_spec intent c) as [-> | ?]; [reflexivity |]
  end.
  unfold intent_translations.
  rewrite !lookup_insert_ne by congruence. apply lookup_singleton_ne. congruence.
Qed.

(** X19. [translate_intent_keywords] answers with five keywords for each
    of the four intents of its table in each of the two languages, and
    with the empty list, not with an exception, for any other intent or
    language. *)
Theorem translate_known_or_empty (intent target_language : string) :
  (In intent TRANSLATED_INTENTS /\ In target_language ["en"; "sw"] ->
     List.length (translate_intent_keywords intent target_language) = 5%nat) /\
  (~ (In intent TRANSLATED_INTENTS /\ In target_language ["en"; "sw"]) ->
     translate_intent_keywords intent target_language = []).
Proof.
  unfold translate_intent_keywords. rewrite translations_of.
  split.
  - intros [Hi Hl]. cbn in Hi, Hl.
    destruct Hi as [<- | [<- | [<- | [<- | []]]]];
      destruct Hl as [<- | [<- | []]]; reflexivity.
  - intros Hnot.
    destruct (String.eqb_spec intent "kra_nil_returns") as [-> | H1];
      [| destruct (String.eqb_spec intent "kra_pin_recovery") as [-> | H2];
         [| destruct (String.eqb_spec intent "kra_pin_generation") as [-> | H3];
            [| destruct (String.eqb_spec intent "itax_help") as [-> | H4];
               [| reflexivity]]]];
      (destruct (String.eqb_spec target_language "en") as [-> | Hen];
         [exfalso; apply Hnot; cbn; tauto |]);
      (destruct (String.eqb_spec target_language "sw") as [-> | Hsw];
         [exfalso; apply Hnot; cbn; tauto |]);
      unfold intent_translations;
      repeat first
        [ rewrite lookup_insert_eq
        | rewrite lookup_insert_ne by discriminate
        | rewrite lookup_singleton_eq ];
      cbn [from_option id];
      rewrite lookup_insert_ne by congruence;
      rewrite lookup_singleton_ne by congruence; reflexivity.
Qed.

Lemma translate_known_or_empty_witness :
  List.length (translate_intent_keywords "itax_help" "sw") = 5%nat /\
  translate_intent_keywords "itax_help" "fr" = [].
Proof.
  split.
  - apply (proj1 (translate_known_or_empty "itax_help" "sw")). cbn. tauto.
  - apply (proj2 (translate_known_or_empty "itax_help" "fr")).
    cbn. intros [_ [H | [H | []]]]; discriminate H.
Defined.

(** X20. The English keywords of the translation table agree with the
    rules of the classifier: each of them, taken alone as a normalized
    message, is classified as the intent it is listed under, except
    [new pin], listed under [kra_pin_generation] and classified as
    [kra_pin_recovery]. *)
Theorem english_keywords_are_classified (intent keyword : string) :
  In keyword (translate_intent_keywords intent "en") ->
  fst (IntentDetector._detect_primary_intent keyword) = intent \/
  (keyword = "new pin" /\ intent = "kra_pin_generation" /\
   fst (IntentDetector._detect_primary_intent keyword) = "kra_pin_recovery").
Proof.
  unfold translate_intent_keywords. rewrite translations_of.
  destruct (String.eqb_spec intent "kra_nil_returns") as [-> | H1];
    [| destruct (String.eqb_spec intent "kra_pin_recovery") as [-> | H2];
       [| destruct (String.eqb_spec intent "kra_pin_generation") as [-> | H3];
          [| destruct (String.eqb_spec intent "itax_help") as [-> | H4]]]];
    intros Hin; vm_compute in Hin;
    repeat match goal with
    | H : _ \/ _ |- _ => destruct H as [<- | H]
    | H : False |- _ => destruct H
    end;
    first [ left; reflexivity | right; repeat split ].
Qed.

Lemma english_keywords_are_classified_witness :
  fst (IntentDetector._detect_primary_intent "forgot pin") = "kra_pin_recovery" \/
  ("forgot pin" = "new pin" /\ "kra_pin_recovery" = "kra_pin_generation" /\
   fst (IntentDetector._detect_primary_intent "forgot pin") = "kra_pin_recovery").
Proof.
  apply (english_keywords_are_classified "kra_pin_recovery" "forgot pin").
  vm_compute. tauto.
Defined.

(** *** Sentences and segments *)

Lemma detect_unpinned_tag (text : pyval) :
  fst (detect text None) = PStr "en" \/ fst (detect text None) = PStr "sw".
Proof.
  unfold detect, detect_body. cbn [pinned].
  destruct text as [| b | z | s]; try (left; reflexivity).
  unfold on_lower, bind, ret.
  destruct (Qlt_bool _ _); [right | left]; reflexivity.
Qed.

Lemma split_step (p : ascii -> bool) (prev : option ascii) (c : ascii)
    (s cur : string) :
  Re.split_from (Re.Cls p) prev (String c s) 0 cur =
  if p c then rev_string "" cur :: Re.split_from (Re.Cls p) (Some c) s 0 ""
  else Re.split_from (Re.Cls p) (Some c) s 0 (String c cur).
Proof.
  cbn [Re.split_from]. unfold Re.match_here. cbn [Re.run]. unfold Re.cls_ok.
  rewrite andb_false_l, orb_false_r.
  destruct (p c); [| reflexivity].
  replace (String.length (String c s) - String.length s)%nat with 1%nat
    by (cbn [String.length]; lia).
  reflexivity.
Qed.

Lemma rev_string_all (p : ascii -> bool) (s acc : string) :
  all_chars p s = true -> all_chars p acc = true ->
  all_chars p (rev_string acc s) = true.
Proof.
  revert acc. induction s as [| c s IH]; intros acc Hs Hacc; [exact Hacc |].
  cbn [all_chars] in Hs. apply andb_true_iff in Hs as [Hc Hs].
  cbn [rev_string]. apply IH; [exact Hs |]. cbn [all_chars]. rewrite Hc. exact Hacc.
Qed.

Lemma lstrip_all_space (s : string) : all_chars is_space s = true -> lstrip s = "".
Proof.
  induction s as [| c s IH]; [reflexivity |].
  cbn [all_chars lstrip]. intros [-> Hs]%andb_true_iff. exact (IH Hs).
Qed.

Lemma strip_all_space (s : string) : all_chars is_space s = true -> strip s = "".
Proof. intros H. unfold strip. rewrite (lstrip_all_space s H). reflexivity. Qed.

(** The pieces of a text made of whitespace and terminators only are
    blank. *)
Lemma split_blank (s : string) :
  forall prev cur,
    all_chars (fun c => is_space c || is_terminator c) s = true ->
    all_chars is_space cur = true ->
    Forall (fun piece => all_chars is_space piece = true)
      (Re.split_from (Re.Cls is_terminator) prev s 0 cur).
Proof.
  induction s as [| c s IH]; intros prev cur Hs Hcur.
  - cbn [Re.split_from]. constructor; [| constructor].
    apply rev_string_all; [exact Hcur | reflexivity].
  - cbn [all_chars] in Hs. apply andb_true_iff in Hs as [Hc Hs].
    rewrite split_step. destruct (is_terminator c) eqn:Ht.
    + constructor; [apply rev_string_all; [exact Hcur | reflexivity] |].
      apply IH; [exact Hs | reflexivity].
    + apply IH; [exact Hs |]. cbn [all_chars]. rewrite orb_false_r in Hc.
      rewrite Hc. exact Hcur.
Qed.

Lemma scan_blank_sentences (text : string) (sentences : list string) (st : Scan) :
  Forall (fun piece => all_chars is_space piece = true) sentences ->
  fold_left (scan_step (fun sentence => detect (PStr sentence) None) text)
    sentences st = st.
Proof.
  intros Hall. revert st. induction Hall as [| piece rest Hpiece _ IH]; intros st.
  - reflexivity.
  - cbn [fold_left]. unfold scan_step at 2. rewrite (strip_all_space piece Hpiece).
    cbn. apply IH.
Qed.

(** X21. A text made of whitespace and sentence terminators only (the
    empty text included) has no segment: every sentence of it is blank
    and is skipped. *)
Theorem blank_text_has_no_segment (text : string) :
  all_chars (fun c => is_space c || is_terminator c) text = true ->
  detect_code_switches text = [].
Proof.
  intros Hblank. unfold detect_code_switches, code_switches_with, Re.split.
  rewrite scan_blank_sentences; [reflexivity |].
  apply (split_blank text None "" Hblank). reflexivity.
Qed.

Lemma blank_text_has_no_segment_witness :
  detect_code_switches " ... ?!  " = [].
Proof.
  apply (blank_text_has_no_segment " ... ?!  "). reflexivity.
Defined.

Lemma rev_string_acc (s acc : string) : rev_string acc s = rev_string "" s ++ acc.
Proof.
  revert acc. induction s as [| c s IH]; intros acc; [reflexivity |].
  cbn [rev_string]. rewrite (IH (String c acc)), (IH (String c "")).
  rewrite app_assoc. reflexivity.
Qed.

Lemma rev_string_app (a b acc : string) :
  rev_string acc (a ++ b) = rev_string (rev_string acc a) b.
Proof.
  revert acc. induction a as [| c a IH]; intros acc; [reflexivity |].
  rewrite app_cons. cbn [rev_string]. apply IH.
Qed.

Lemma rev_string_involutive (s : string) : rev_string "" (rev_string "" s) = s.
Proof.
  induction s as [| c s IH]; [reflexivity |].
  cbn [rev_string]. rewrite (rev_string_acc s (String c "")), rev_string_app, IH.
  reflexivity.
Qed.

Lemma split_no_terminator (p : ascii -> bool) (s : string) :
  forall prev cur,
    all_chars (fun c => negb (p c)) s = true ->
    Re.split_from (Re.Cls p) prev s 0 cur = [rev_string "" (rev_string cur s)].
Proof.
  induction s as [| c s IH]; intros prev cur Hs; [reflexivity |].
  cbn [all_chars] in Hs. apply andb_true_iff in Hs as [Hc Hs].
  rewrite split_step. apply negb_true_iff in Hc. rewrite Hc.
  cbn [rev_string]. apply IH. exact Hs.
Qed.

Lemma len_sentence (body : string) : len (body ++ ". ") = (len body + 2)%Z.
Proof. unfold len. rewrite length_app. cbn [String.length]. lia. Qed.

(** X22. A text with no sentence terminator that is not blank makes one
    segment: its text is the stripped text with a full stop added, its
    language is what [detect] says of the whole text, its end is the
    length of the text, and its start is -2, two characters before the
    text begins, because the ". " that the loop appends is counted. *)
Theorem unterminated_text_is_one_segment (text : string) :
  all_chars (fun c => negb (is_terminator c)) text = true ->
  strip text <> "" ->
  detect_code_switches text =
    [ {| seg_text := strip (text ++ ". ");
         seg_language := fst (detect (PStr text) None);
         seg_start := -2;
         seg_end := len text |} ].
Proof.
  intros Hnone Hblank.
  unfold detect_code_switches, code_switches_with, Re.split.
  change (Re.Cls (Re.one_of ".!?")) with (Re.Cls is_terminator).
  rewrite (split_no_terminator is_terminator text None "" Hnone).
  rewrite rev_string_involutive. cbn [fold_left]. unfold scan_step.
  apply String.eqb_neq in Hblank. rewrite Hblank.
  assert (Hne : py_ne (fst (detect (PStr text) None)) (current_language scan_init) = true).
  { destruct (detect_unpinned_tag (PStr text)) as [-> | ->]; reflexivity. }
  rewrite Hne. cbn [scan_init current_segment segments negb]. cbn [String.eqb].
  unfold scan_finish. cbn [current_segment segments current_language].
  assert (Hseg : String.eqb (text ++ ". ") "" = false).
  { apply String.eqb_neq. exact (LanguageProps.sentence_segment_nonempty "" text). }
  rewrite Hseg. cbn [negb app]. rewrite len_sentence.
  replace (len text - (len text + 2))%Z with (-2)%Z by lia. reflexivity.
Qed.

Lemma unterminated_text_is_one_segment_witness :
  detect_code_switches "Habari yako" =
    [ {| seg_text := strip ("Habari yako" ++ ". ");
         seg_language := fst (detect (PStr "Habari yako") None);
         seg_start := -2;
         seg_end := len "Habari yako" |} ].
Proof.
  apply (unterminated_text_is_one_segment "Habari yako"); [reflexivity |].
  vm_compute. discriminate.
Defined.

Lemma ends_with_stop (b : string) : ends_with "." (b ++ ".") = true.
Proof.
  induction b as [| c b IH]; [reflexivity |].
  rewrite app_cons. cbn [ends_with]. rewrite IH. apply orb_true_r.
Qed.

Lemma rstrip_sentence (b : string) : rstrip (b ++ ". ") = b ++ ".".
Proof.
  induction b as [| c b IH]; [reflexivity |].
  rewrite !app_cons. cbn [rstrip]. rewrite IH.
  destruct (b ++ ".") eqn:Hb; [| reflexivity].
  apply (f_equal String.length) in Hb. rewrite length_app in Hb. cbn in Hb. lia.
Qed.

Lemma lstrip_sentence (body : string) :
  exists b, lstrip (body ++ ". ") = b ++ ". ".
Proof.
  induction body as [| c body IH]; [exists ""; reflexivity |].
  rewrite app_cons. cbn [lstrip]. destruct (is_space c); [exact IH |].
  exists (String c body). reflexivity.
Qed.

Lemma strip_sentence_ends (body : string) :
  ends_with "." (strip (body ++ ". ")) = true.
Proof.
  unfold strip. destruct (lstrip_sentence body) as [b ->].
  rewrite rstrip_sentence. apply ends_with_stop.
Qed.

Lemma nonblank_nonempty (sentence : string) :
  String.eqb (strip sentence) "" = false -> sentence <> "".
Proof. intros H ->. discriminate H. Qed.

Lemma len_body (body : string) : body <> "" -> (1 <= len body)%Z.
Proof. destruct body; [congruence |]. unfold len. cbn [String.length]. lia. Qed.

Lemma scan_step_wf (text : string) (st : Scan) (sentence : string) :
  scan_wf st ->
  scan_wf (scan_step (fun s => detect (PStr s) None) text st sentence).
Proof.
  intros [Hsegs Hcur]. unfold scan_step.
  destruct (String.eqb (strip sentence) "") eqn:Hblank; [split; assumption |].
  pose proof (nonblank_nonempty sentence Hblank) as Hsentence.
  pose proof (detect_unpinned_tag (PStr sentence)) as Htag.
  cbn [fst] in *.
  destruct (py_ne (fst (detect (PStr sentence) None)) (current_language st)) eqn:Hne.
  - split; cbn [segments current_segment current_language].
    + destruct Hcur as [(-> & _ & ->) | (body & -> & Hbody & Hlang)].
      * constructor.
      * assert (Hseg : String.eqb (body ++ ". ") "" = false).
        { apply String.eqb_neq.
          exact (LanguageProps.sentence_segment_nonempty "" body). }
        rewrite Hseg. cbn [negb]. apply Forall_app. split; [exact Hsegs |].
        constructor; [| constructor].
        repeat split; cbn [seg_language seg_text seg_start seg_end].
        -- exact Hlang.
        -- apply strip_sentence_ends.
        -- rewrite len_sentence. pose proof (len_body body Hbody). lia.
    + right. exists sentence. repeat split; assumption.
  - split; cbn [segments current_segment current_language]; [exact Hsegs |].
    destruct Hcur as [(_ & Hnone & _) | (body & -> & Hbody & Hlang)].
    + rewrite Hnone in Hne. destruct Htag as [Ht | Ht]; rewrite Ht in Hne;
        discriminate Hne.
    + right. exists (body ++ ". " ++ sentence). repeat split.
      * rewrite !app_assoc. reflexivity.
      * intros H. apply (f_equal String.length) in H.
        rewrite !length_app in H. cbn in H. lia.
      * exact Hlang.
Qed.

Lemma scan_fold_wf (text : string) (sentences : list string) (st : Scan) :
  scan_wf st ->
  scan_wf (fold_left (scan_step (fun s => detect (PStr s) None) text) sentences st).
Proof.
  revert st. induction sentences as [| sentence sentences IH]; intros st Hwf.
  - exact Hwf.
  - cbn [fold_left]. apply IH, scan_step_wf, Hwf.
Qed.

Lemma scan_finish_wf (text : string) (st : Scan) :
  scan_wf st ->
  Forall segment_ok (scan_finish text st) /\
  forall seg, last (scan_finish text st) = Some seg -> seg_end seg = len text.
Proof.
  intros [Hsegs Hcur]. unfold scan_finish.
  destruct Hcur as [(-> & _ & ->) | (body & -> & Hbody & Hlang)].
  - cbn. split; [constructor | discriminate].
  - assert (Hseg : String.eqb (body ++ ". ") "" = false).
    { apply String.eqb_neq.
      exact (LanguageProps.sentence_segment_nonempty "" body). }
    rewrite Hseg. cbn [negb]. split.
    + apply Forall_app. split; [exact Hsegs |].
      constructor; [| constructor].
      repeat split; cbn [seg_language seg_text seg_start seg_end].
      * exact Hlang.
      * apply strip_sentence_ends.
      * rewrite len_sentence. pose proof (len_body body Hbody). lia.
    + intros seg. rewrite last_snoc. intros [= <-]. reflexivity.
Qed.

(** X23. Every segment that [detect_code_switches] returns carries the
    tag [en] or [sw] (never [None]), has a text that ends with a full
    stop (the terminators [!] and [?] of the input are replaced), and
    spans at least three characters from [start] to [end]; the last
    segment ends at the length of the text. *)
Theorem code_switch_segments_well_formed (text : string) :
  (forall seg, In seg (detect_code_switches text) ->
     (seg_language seg = PStr "en" \/ seg_language seg = PStr "sw") /\
     ends_with "." (seg_text seg) = true /\
     (seg_start seg + 3 <= seg_end seg)%Z) /\
  (forall seg, last (detect_code_switches text) = Some seg ->
     seg_end seg = len text).
Proof.
  assert (Hwf : scan_wf
    (fold_left (scan_step (fun s => detect (PStr s) None) text)
       (Re.split (Re.Cls (Re.one_of ".!?")) text) scan_init)).
  { apply scan_fold_wf. split; [constructor | left; repeat split]. }
  destruct (scan_finish_wf text _ Hwf) as [Hall Hlast].
  split.
  - intros seg Hin. rewrite Forall_forall in Hall.
    apply Hall. apply list_elem_of_In. exact Hin.
  - exact Hlast.
Qed.

Lemma code_switch_segments_well_formed_witness :
  (seg_language
     {| seg_text := "Nataka kusaidia.";
        seg_language := PStr "sw";
        seg_start := 21;
        seg_end := 39 |} = PStr "en" \/
   seg_language
     {| seg_text := "Nataka kusaidia.";
        seg_language := PStr "sw";
        seg_start := 21;
        seg_end := 39 |} = PStr "sw") /\
  ends_with "." "Nataka kusaidia." = true /\
  (21 + 3 <= 39)%Z.
Proof.
  apply (proj1 (code_switch_segments_well_formed two_languages)
           {| seg_text := "Nataka kusaidia.";
              seg_language := PStr "sw";
              seg_start := 21;
              seg_end := 39 |}).
  vm_compute. tauto.
Defined.

Lemma scan_step_single (text : string) (tag : pyval) (st : Scan) (sentence : string) :
  (strip sentence <> "" -> fst (detect (PStr sentence) None) = tag) ->
  segments st = [] /\
  ((current_segment st = "" /\ current_language st = PNone) \/
   current_language st = tag) ->
  let st' := scan_step (fun s => detect (PStr s) None) text st sentence in
  segments st' = [] /\
  ((current_segment st' = "" /\ current_language st' = PNone) \/
   current_language st' = tag).
Proof.
  intros Htag [Hsegs Hcur]. cbv zeta. unfold scan_step.
  destruct (String.eqb_spec (strip sentence) "") as [_ | Hblank];
    [split; assumption |].
  rewrite (Htag Hblank).
  destruct (py_ne tag (current_language st)) eqn:Hne;
    cbn [segments current_segment current_language].
  - split; [| right; reflexivity].
    destruct Hcur as [[-> _] | Hsame].
    + exact Hsegs.
    + rewrite Hsame in Hne. unfold py_ne in Hne. rewrite py_eq_refl in Hne.
      discriminate Hne.
  - split; [exact Hsegs |]. destruct Hcur as [[_ Hnone] | Hsame]; [| right; exact Hsame].
    right. rewrite Hnone in Hne.
    pose proof (detect_unpinned_tag (PStr sentence)) as Hrange.
    rewrite (Htag Hblank) in Hrange.
    destruct Hrange as [-> | ->]; discriminate Hne.
Qed.

Lemma scan_fold_single (text : string) (tag : pyval) (sentences : list string) :
  forall st,
    Forall (fun sentence =>
              strip sentence <> "" -> fst (detect (PStr sentence) None) = tag)
      sentences ->
    segments st = [] /\
    ((current_segment st = "" /\ current_language st = PNone) \/
     current_language st = tag) ->
    let st' := fold_left (scan_step (fun s => detect (PStr s) None) text) sentences st in
    segments st' = [] /\
    ((current_segment st' = "" /\ current_language st' = PNone) \/
     current_language st' = tag).
Proof.
  induction sentences as [| sentence sentences IH]; intros st Hall Hst.
  - exact Hst.
  - apply Forall_cons in Hall as [Hhead Htail]. cbn [fold_left].
    apply IH; [exact Htail |]. apply scan_step_single; assumption.
Qed.

(** X29. Sentences of one language are merged: when [detect] gives the
    same tag to every sentence of the text that is not blank,
    [detect_code_switches] returns at most one segment, and that segment
    carries the tag. *)
Theorem one_language_one_segment (text : string) (tag : pyval) :
  (forall sentence,
     In sentence (Re.split (Re.Cls is_terminator) text) ->
     strip sentence <> "" ->
     fst (detect (PStr sentence) None) = tag) ->
  (List.length (detect_code_switches text) <= 1)%nat /\
  (forall seg, In seg (detect_code_switches text) -> seg_language seg = tag).
Proof.
  intros Hall. unfold detect_code_switches, code_switches_with.
  change (Re.Cls (Re.one_of ".!?")) with (Re.Cls is_terminator).
  destruct (scan_fold_single text tag (Re.split (Re.Cls is_terminator) text) scan_init)
    as [Hsegs Hcur].
  { apply Forall_forall. intros sentence Hin. apply Hall.
    apply list_elem_of_In. exact Hin. }
  { split; [reflexivity | left; split; reflexivity]. }
  unfold scan_finish. rewrite Hsegs.
  destruct (negb (String.eqb (current_segment _) "")) eqn:Hopen.
  - cbn [app List.length]. split; [lia |].
    intros seg [<- | []]. cbn [seg_language].
    destruct Hcur as [[Hempty _] | Hsame]; [| exact Hsame].
    rewrite Hempty in Hopen. discriminate Hopen.
  - split; [cbn; lia | intros seg []].
Qed.

Lemma one_language_one_segment_witness :
  (List.length (detect_code_switches "Please help me. What is the form?") <= 1)%nat /\
  (forall seg,
     In seg (detect_code_switches "Please help me. What is the form?") ->
     seg_language seg = PStr "en").
Proof.
  apply (one_language_one_segment "Please help me. What is the form?" (PStr "en")).
  intros sentence Hin _. vm_compute in Hin.
  destruct Hin as [<- | [<- | [<- | []]]]; reflexivity.
Defined.

(** X30. The comparison of [detect] is one of doubles.  On
    [close_scores] the Kiswahili score is the double 0.9 and the English
    score the double 0.7; the sum [0.7 + 0.2] of doubles is below the
    double 0.9 (in exact arithmetic the two are equal), so the language
    is [sw], with confidence [0.9 / 1.6], the double 0.5625. *)
Theorem close_scores_are_sw :
  (_score_kiswahili (lower (strip close_scores)) == lit 0.9)%Q /\
  (_score_english (lower (strip close_scores)) == lit 0.7)%Q /\
  (fadd (lit 0.7) (lit 0.2) < lit 0.9)%Q /\
  fst (detect (PStr close_scores) None) = PStr "sw" /\
  (snd (detect (PStr close_scores) None) == 0.5625)%Q.
Proof. vm_compute. repeat split; reflexivity. Qed.

End LanguageMore.

(** ** The fallback classifier beside the primary one *)

Module GeminiMore.
Import GeminiService IntentDetector StrFacts Measures.

(** X24. [_detect_basic_intent] answers with one of seven tags. Two of
    them, [service_info] and [cancel], are never answered by
    [_detect_primary_intent], which says [service_inquiry] and [negate]:
    when the two classifiers give the same tag, it is one of [greeting],
    [book_appointment], [help], [confirm] and [unknown]. *)
Theorem basic_intent_tags (message normalized : string) :
  In (_detect_basic_intent message) BASIC_INTENTS /\
  (_detect_basic_intent message = fst (_detect_primary_intent normalized) ->
   In (_detect_basic_intent message) SHARED_INTENTS).
Proof.
  unfold _detect_basic_intent, _detect_primary_intent. cbv zeta.
  repeat match goal with
  | |- context [if ?b then _ else _] => destruct b
  end; cbn; (split; [tauto | intros H; first [discriminate H | tauto]]).
Qed.

Lemma basic_intent_tags_witness :
  In (_detect_basic_intent "Sawa, okay") BASIC_INTENTS /\
  In (_detect_basic_intent "Sawa, okay") SHARED_INTENTS.
Proof.
  split.
  - apply (proj1 (basic_intent_tags "Sawa, okay" "sawa, okay")).
  - apply (proj2 (basic_intent_tags "Sawa, okay" "sawa, okay")). reflexivity.
Defined.

Lemma rstrip_keeps (x post : string) (z : ascii) :
  is_space z = false ->
  rstrip (x ++ String z post) = x ++ String z (rstrip post).
Proof.
  intros Hz. induction x as [| c x IH].
  - change ("" ++ ?t) with t. cbn [rstrip]. rewrite Hz.
    destruct (rstrip post); reflexivity.
  - rewrite !app_cons. cbn [rstrip]. rewrite IH.
    destruct (x ++ String z (rstrip post)) eqn:Hx; [| reflexivity].
    apply (f_equal String.length) in Hx. rewrite length_app in Hx. cbn in Hx. lia.
Qed.

Lemma lstrip_keeps (pre t : string) (a : ascii) :
  is_space a = false ->
  exists pre', lstrip (pre ++ String a t) = pre' ++ String a t.
Proof.
  intros Ha. induction pre as [| c pre IH].
  - exists "". change ("" ++ ?x) with x. cbn [lstrip]. rewrite Ha. reflexivity.
  - rewrite app_cons. cbn [lstrip]. destruct (is_space c); [exact IH |].
    exists (String c pre). reflexivity.
Qed.

(** [strip] keeps the occurrences of [book]. *)
Lemma book_survives_strip (s : string) :
  py_in "book" s = true -> py_in "book" (strip s) = true.
Proof.
  intros (pre & post & ->)%py_in_app. unfold strip.
  change ("book" ++ post) with (String "b" ("oo" ++ String "k" post)).
  destruct (lstrip_keeps pre ("oo" ++ String "k" post) "b" eq_refl) as [pre' ->].
  change (String "b" ("oo" ++ String "k" post)) with ("boo" ++ String "k" post).
  rewrite <- app_assoc. rewrite rstrip_keeps by reflexivity.
  apply py_in_app. exists pre', (rstrip post).
  rewrite app_assoc. reflexivity.
Qed.

(** X25. The two classifiers part ways on [book]: for every message
    whose lower-cased text contains "book" and none of the six greeting
    words of the fallback classifier, [_detect_basic_intent] answers
    [book_appointment], and [_detect_primary_intent] on the normalized
    message answers something else. *)
Theorem classifiers_disagree_on_book (message : string) :
  py_in "book" (lower message) = true ->
  any_in BASIC_GREETINGS (lower message) = false ->
  _detect_basic_intent message = "book_appointment" /\
  fst (_detect_primary_intent (_normalize_message message)) <> "book_appointment".
Proof.
  intros Hbook Hgreet. split.
  - unfold _detect_basic_intent. cbv zeta.
    change (any_in ["hello"; "hi"; "hey"; "good morning"; "good afternoon";
                    "good evening"] (lower message))
      with (any_in BASIC_GREETINGS (lower message)).
    rewrite Hgreet.
    assert (Hb : any_in ["book"; "appointment"; "schedule"] (lower message) = true).
    { unfold any_in. cbn [existsb]. rewrite Hbook. reflexivity. }
    rewrite Hb. reflexivity.
  - unfold _normalize_message.
    pose proof (book_survives_strip (lower message) Hbook) as Hnorm.
    pose proof (IntentProps.book_matches_confirmation _ Hnorm) as Hconf.
    unfold _detect_primary_intent. rewrite Hconf.
    repeat match goal with
    | |- context [if ?b then _ else _] => destruct b
    end; cbn; discriminate.
Qed.

Lemma classifiers_disagree_on_book_witness :
  _detect_basic_intent "  I want to BOOK a slot " = "book_appointment" /\
  fst (_detect_primary_intent (_normalize_message "  I want to BOOK a slot "))
  <> "book_appointment".
Proof.
  apply (classifiers_disagree_on_book "  I want to BOOK a slot "); reflexivity.
Defined.

End GeminiMore.
